(** * The live log console of the CloudNet web interface

    A shallow embedding of two source files of the dashboard:

    - the server API helpers ([serverApiGet], [serverApiPost] and the
      [serverAuthApi] table built on them), in module [ServerApi];
    - the [ServiceConsole] React component ([src/components/console.tsx]),
      in module [ServiceConsole].

    The component is asynchronous: [initializeSocket], [cachedLogLines] and
    [handleSubmit] suspend at every [await] and are resumed by the event
    loop.  The embedding makes this explicit.  A [World] holds the React
    state cells, the two refs, the store of the [WebSocket] objects that
    were constructed, the table of suspended continuations and the log of
    the calls made to the outside.  [step] runs one event-loop task (an
    effect run, a cleanup, the settlement of an awaited promise, a socket
    event, an operator action) up to its next suspension point. *)

From Stdlib Require Import String Ascii List Bool Arith Lia.
From stdpp Require Import base option list strings gmap.
Import ListNotations.

Local Open Scope string_scope.
Local Open Scope list_scope.

(** ** JavaScript string primitives used by both files *)

Module Js.

(** [s.startsWith(p)] *)
Definition startsWith (s p : string) : bool := String.prefix p s.

(** [s.includes(sub)]: [sub] occurs at some position of [s]. *)
Fixpoint includes (s sub : string) : bool :=
  String.prefix sub s ||
  match s with
  | EmptyString => false
  | String _ s' => includes s' sub
  end.

(** [xs.join(sep)] *)
Definition join (sep : string) (xs : list string) : string :=
  String.concat sep xs.

(** Truthiness of a string value: every string but the empty one. *)
Definition truthy (s : string) : bool := negb (String.eqb s "").

(** Truthiness of [x?.value]-style optional strings: [undefined] is falsy. *)
Definition truthy_opt (o : option string) : bool :=
  match o with
  | Some s => truthy s
  | None => false
  end.

(** The tail of [s] after its first [n] characters. *)
Definition dropChars (n : nat) (s : string) : string :=
  String.substring n (String.length s - n) s.

(** [s.replace(/^(http:\/\/|https:\/\/)/, '')] *)
Definition stripHttpScheme (s : string) : string :=
  if String.prefix "http://" s then dropChars 7 s
  else if String.prefix "https://" s then dropChars 8 s
  else s.

(** [String(x)] for a property read that may be [undefined]. *)
Definition toStringOrUndefined (o : option string) : string :=
  match o with
  | Some s => s
  | None => "undefined"
  end.

(** The built-in functions whose results depend on Unicode tables or on the
    UTF-8 codec.  The development is parametric in them.
    [decodeURIComponent] is partial: it throws [URIError] on a malformed
    escape sequence. *)
Class Builtins := {
  decodeURIComponent : string -> option string;
  toLowerCase : string -> string;
  trim : string -> string
}.

End Js.

(** ** The server API helpers *)

Module ServerApi.

(** JSON values, as far as the helpers build or return them. *)
#[warnings="-register-all"]
Inductive Json : Type :=
| JNull
| JBool (b : bool)
| JNumber (n : nat)
| JString (s : string)
| JArray (items : list Json)
| JObject (fields : list (string * Json)).

(** The argument of [fetch]. *)
Record Request := mkRequest {
  req_url : string;
  req_method : string;
  req_headers : list (string * string);
  req_body : option string
}.

(** What the helpers read of a [Response]: [ok], [status], [text()]. *)
Record Response := mkResponse {
  ok : bool;
  status : nat;
  text : string
}.

(** The exceptions a helper can end with.  The first four are the [Error]s
    the file throws itself, with the messages ['Unauthorized'],
    [`HTTP error! status: ${status}`], ['Empty response received'] and
    [`Failed to parse JSON response: ${text}`]; the last two come from the
    platform ([decodeURIComponent] and [fetch]). *)
Inductive ApiError : Type :=
| Unauthorized
| HttpError (status : nat)
| EmptyResponse
| ParseFailure (text : string)
| UriMalformed
| FetchRejected.

(** A helper's outcome: the network requests it issued, in order, and
    either the exception it threw or the value it resolved to. *)
Definition Outcome : Type := list Request * (ApiError + Json).

(** The bearer token which the session holds, written into the header. *)
Definition jsonHeaders (accessToken : string) : list (string * string) :=
  [("Content-Type", "application/json");
   ("Authorization", "Bearer " +:+ accessToken)].

(** The runtime of the helpers: the JSON codec,
    [new URLSearchParams(params).toString()], and the network ([fetch]
    answers [None] when its promise rejects). *)
Class Runtime := {
  JSON_parse : string -> option Json;
  JSON_stringify : Json -> string;
  urlSearchParams : list (string * string) -> string;
  fetch : Request -> option Response
}.

Section Helpers.

Context `{Js.Builtins} `{Runtime}.

Definition handleResponse (response : Response) : ApiError + Json :=
  if negb (ok response) then inl (HttpError (status response))
  else
    let text := text response in
    if negb (Js.truthy text) then inl EmptyResponse
    else
      match JSON_parse text with
      | Some v => inr v
      | None => inl (ParseFailure text)
      end.

(** The part the two helpers share after the session check: decode the
    address, issue the request, hand the response over. *)
Definition send (address : string) (mk : string -> Request) : Outcome :=
  match Js.decodeURIComponent address with
  | None => ([], inl UriMalformed)
  | Some base =>
      let request := mk base in
      match fetch request with
      | None => ([request], inl FetchRejected)
      | Some response => ([request], handleResponse response)
      end
  end.

Definition serverApiGet (cookie : gmap string string) (url : string)
    (params : option (list (string * string))) : Outcome :=
  let queryString :=
    match params with
    | Some p => "?" +:+ urlSearchParams p
    | None => ""
    end in
  let accessToken := cookie !! "at" in
  let address := cookie !! "add" in
  if negb (Js.truthy_opt accessToken) || negb (Js.truthy_opt address)
  then ([], inl Unauthorized)
  else
    send (default "" address) (fun base =>
      {| req_url := base +:+ url +:+ queryString;
         req_method := "GET";
         req_headers := jsonHeaders (default "" accessToken);
         req_body := None |}).

Definition serverApiPost (cookie : gmap string string) (url : string)
    (body : Json) : Outcome :=
  let accessToken := cookie !! "at" in
  let address := cookie !! "add" in
  if negb (Js.truthy_opt accessToken) || negb (Js.truthy_opt address)
  then ([], inl Unauthorized)
  else
    send (default "" address) (fun base =>
      {| req_url := base +:+ url;
         req_method := "POST";
         req_headers := jsonHeaders (default "" accessToken);
         req_body := Some (JSON_stringify body) |}).

(** [serverAuthApi] *)
Definition checkToken cookie : Outcome :=
  serverApiPost cookie "/api/auth/jwt" (JObject []).
Definition createTicket cookie (type : string) : Outcome :=
  serverApiPost cookie "/api/auth/ticket" (JObject [("type", JString type)]).
Definition getCookies cookie : Outcome :=
  serverApiGet cookie "/api/auth/getCookies" None.
Definition getPermissions cookie : Outcome :=
  serverApiGet cookie "/api/auth/getPermissions" None.

(** [serverServiceApi] *)
Definition service_list cookie : Outcome :=
  serverApiGet cookie "/service" None.
Definition service_get cookie (id : string) : Outcome :=
  serverApiGet cookie ("/service/" +:+ id) None.
Definition service_logLines cookie (id : string) : Outcome :=
  serverApiGet cookie ("/service/" +:+ id +:+ "/logLines") None.

End Helpers.

End ServerApi.

(** ** The user page

    [UserPage] of the dashboard: the permission gate, then the fetch of the
    user through [serverUserApi.get].  The permissions are the value
    [getPermissions()] resolved to, a list of permission names. *)

Module UserPage.

Import ServerApi.

(** What the page function returns or throws: one of the three components,
    or the [TypeError] of reading [username] off [null]. *)
Inductive Rendered : Type :=
| NoAccess
| DoesNotExist (name : string)
| PageLayout (title : string) (user : Json)
| TypeError.

(** [String(v)] for the JSON values that are not strings, as a template
    literal applies it. *)
Class Templating := {
  stringOf : Json -> string
}.

Definition requiredPermissions : list string :=
  ["cloudnet_rest:user_read"; "cloudnet_rest:user_get"; "global:admin"].

(** [permissions.includes(permission)] *)
Definition includes (permissions : list string) (permission : string) : bool :=
  existsb (String.eqb permission) permissions.

(** [requiredPermissions.some((permission) => permissions.includes(permission))] *)
Definition hasPermissions (permissions : list string) : bool :=
  existsb (fun permission => includes permissions permission) requiredPermissions.

(** [o[name]] on a parsed object: of two members with one name the later
    one is kept by [JSON.parse]. *)
Definition member (name : string) (fields : list (string * Json)) : option Json :=
  fold_left (fun found kv => if String.eqb (fst kv) name then Some (snd kv) else found)
    fields None.

(** [user.username]: [None] when the read throws (on [null]), [Some None]
    when it gives [undefined]. *)
Definition username (user : Json) : option (option Json) :=
  match user with
  | JNull => None
  | JObject fields => Some (member "username" fields)
  | _ => Some None
  end.

Section Page.

Context `{Js.Builtins} `{Runtime} `{Templating}.

(** [serverUserApi] *)
Definition user_list (cookie : gmap string string) : Outcome :=
  serverApiGet cookie "/user" None.
Definition user_get (cookie : gmap string string) (id : string) : Outcome :=
  serverApiGet cookie ("/user/" +:+ id) None.

(** [`Edit ${user.username}`] *)
Definition title (name : option Json) : string :=
  "Edit " +:+ match name with
              | None => "undefined"
              | Some (JString s) => s
              | Some v => stringOf v
              end.

(** The page, from the point where the permissions are known: the
    requests it issued from there on, and what it rendered. *)
Definition UserPage (cookie : gmap string string) (userId : string)
    (permissions : list string) : list Request * Rendered :=
  if negb (hasPermissions permissions) then ([], NoAccess)
  else
    match user_get cookie userId with
    | (requests, inl _) => (requests, DoesNotExist "User")
    | (requests, inr user) =>
        (requests,
         match username user with
         | Some name => PageLayout (title name) user
         | None => TypeError
         end)
    end.

End Page.

End UserPage.

(** ** The console component *)

Module ServiceConsole.

Record ConsoleEntry := mkEntry { output : string }.

Inductive TargetType : Type := service | node.

Record ServiceConsoleProps := mkProps {
  webSocketPath : string;
  serviceName : option string;
  disableCommands : bool;
  type : option TargetType
}.

(** A constructed [WebSocket] object: its URL, whether [close()] was called
    on it, and whether the component's [onmessage] and [onerror] handlers
    are installed on it. *)
Record WebSocket := mkSocket {
  url : string;
  closed : bool;
  onmessage : bool;
  onerror : bool
}.

(** What the browser decides: the page's [window.location.origin], and
    whether [new WebSocket(url)] throws. *)
Class Browser := {
  origin : string;
  webSocketThrows : string -> bool
}.

(** The continuation of an async function suspended at an [await]:
    [cachedLogLines] at [serviceApi.logLines], [initializeSocket] at
    [authApi.createTicket] and then at [authApi.getCookies] (holding the
    ticket), [handleSubmit] at [serviceApi.execute]. *)
Inductive Suspended : Type :=
| InLogLines
| InCreateTicket
| InGetCookies (ticket : string)
| InExecute.

(** The calls the component makes to the outside, in the order made. *)
Inductive Call : Type :=
| CreateTicket (type : option TargetType)
| GetCookies
| LogLines (serviceName : string)
| Execute (serviceName input : string)
| NewWebSocket (socketUrl : string)
| Close (socket : nat)
| ToastError (key : string)
| ConsoleError (label : string)
| Download (name content : string).

(** One task of the event loop.  A settlement names the suspended
    continuation it resumes and carries the awaited value, [None] when the
    promise rejects. *)
Inductive Event : Type :=
| EffectRun
| EffectCleanup
| LogLinesSettled (id : nat) (lines : option (list string))
| TicketSettled (id : nat) (ticket : option string)
| CookiesSettled (id : nat) (cookies : option (gmap string string))
| ExecuteSettled (id : nat) (succeeded : bool)
| SocketMessage (socket : nat) (data : string)
| SocketError (socket : nat)
| InputChange (value : string)
| FilterChange (value : string)
| Submit
| DownloadClick
| ClearClick.

Record World := mkWorld {
  props : ServiceConsoleProps;
  (* useState *)
  history : list ConsoleEntry;
  input : string;
  filter : string;
  socketBlocked : bool;
  (* useRef *)
  hasFetchedLogsRef : bool;
  socketRef : option nat;
  (* the heap of sockets, the suspended continuations, the calls made *)
  sockets : list WebSocket;
  pending : list (option Suspended);
  calls : list Call
}.

Definition initial (p : ServiceConsoleProps) : World :=
  {| props := p; history := []; input := ""; filter := "ALL";
     socketBlocked := false; hasFetchedLogsRef := false; socketRef := None;
     sockets := []; pending := []; calls := [] |}.

(** *** Updates of single cells *)

Definition setHistory (f : list ConsoleEntry -> list ConsoleEntry) (w : World) : World :=
  mkWorld (props w) (f (history w)) (input w) (filter w) (socketBlocked w)
    (hasFetchedLogsRef w) (socketRef w) (sockets w) (pending w) (calls w).

Definition setInput (v : string) (w : World) : World :=
  mkWorld (props w) (history w) v (filter w) (socketBlocked w)
    (hasFetchedLogsRef w) (socketRef w) (sockets w) (pending w) (calls w).

Definition setFilter (v : string) (w : World) : World :=
  mkWorld (props w) (history w) (input w) v (socketBlocked w)
    (hasFetchedLogsRef w) (socketRef w) (sockets w) (pending w) (calls w).

Definition setSocketBlocked (b : bool) (w : World) : World :=
  mkWorld (props w) (history w) (input w) (filter w) b
    (hasFetchedLogsRef w) (socketRef w) (sockets w) (pending w) (calls w).

Definition setHasFetchedLogs (b : bool) (w : World) : World :=
  mkWorld (props w) (history w) (input w) (filter w) (socketBlocked w)
    b (socketRef w) (sockets w) (pending w) (calls w).

Definition setSocketRef (r : option nat) (w : World) : World :=
  mkWorld (props w) (history w) (input w) (filter w) (socketBlocked w)
    (hasFetchedLogsRef w) r (sockets w) (pending w) (calls w).

Definition setSockets (s : list WebSocket) (w : World) : World :=
  mkWorld (props w) (history w) (input w) (filter w) (socketBlocked w)
    (hasFetchedLogsRef w) (socketRef w) s (pending w) (calls w).

Definition setPending (p : list (option Suspended)) (w : World) : World :=
  mkWorld (props w) (history w) (input w) (filter w) (socketBlocked w)
    (hasFetchedLogsRef w) (socketRef w) (sockets w) p (calls w).

(** Record a call to the outside. *)
Definition perform (c : Call) (w : World) : World :=
  mkWorld (props w) (history w) (input w) (filter w) (socketBlocked w)
    (hasFetchedLogsRef w) (socketRef w) (sockets w) (pending w) (calls w ++ [c]).

(** Suspend at an [await]: the continuation gets the next free id. *)
Definition suspend (k : Suspended) (w : World) : World :=
  setPending (pending w ++ [Some k]) w.

(** The continuation waiting under [id], if it has not been resumed yet. *)
Definition awaiting (w : World) (id : nat) : option Suspended :=
  match pending w !! id with
  | Some k => k
  | None => None
  end.

(** A continuation is resumed once. *)
Definition resume (id : nat) (w : World) : World :=
  setPending (<[id := None]> (pending w)) w.

(** Update the socket object that [socketRef.current] points to. *)
Definition onCurrentSocket (f : WebSocket -> WebSocket) (w : World) : World :=
  match socketRef w with
  | Some s => setSockets (alter f s (sockets w)) w
  | None => w
  end.

Definition toastError (key : string) : World -> World := perform (ToastError key).
Definition consoleError (label : string) : World -> World := perform (ConsoleError label).

(** *** [applyStyles] *)

(** The colour a line is shown in. *)
Inductive Style : Type := DarkCyan | Orange | RedBold | Unstyled.

(** The [<span>] that [applyStyles] returns. *)
Record Span := mkSpan {
  style : Style;
  content : string
}.

(** A character of the class [[0-9;]]. *)
Definition isSgrParameter (c : ascii) : bool :=
  let n := nat_of_ascii c in
  (((48 <=? n) && (n <=? 57)) || (n =? 59))%nat.

(** The rest of [/\x1b\[[0-9;]*m/] after the bracket: the number of
    characters up to and including the closing [m], if the match succeeds.
    The class and the [m] exclude each other, so the greedy star never
    backtracks. *)
Fixpoint sgrTail (s : string) : option nat :=
  match s with
  | EmptyString => None
  | String c s' =>
      if Ascii.eqb c "m" then Some 1
      else if isSgrParameter c then option_map S (sgrTail s') else None
  end.

(** The length of the match of [/\x1b\[[0-9;]*m/] at the start of [s]. *)
Definition sgrMatch (s : string) : option nat :=
  match s with
  | String esc (String bracket s') =>
      if Ascii.eqb esc (ascii_of_nat 27) && Ascii.eqb bracket "["
      then option_map (fun n => S (S n)) (sgrTail s')
      else None
  | _ => None
  end.

(** The global replace, scanning left to right: [skip] characters of a
    match found earlier are still to be dropped; otherwise a match at the
    current position is dropped whole, and without a match the character
    is kept. *)
Fixpoint stripFrom (skip : nat) (s : string) : string :=
  match s with
  | EmptyString => EmptyString
  | String c s' =>
      match skip with
      | S k => stripFrom k s'
      | O =>
          match sgrMatch s with
          | Some (S k) => stripFrom k s'
          | _ => String c (stripFrom 0 s')
          end
      end
  end.

(** [text.replace(/\x1b\[[0-9;]*m/g, '')] *)
Definition stripAnsi (text : string) : string := stripFrom 0 text.

Definition applyStyles (text : string) : Span :=
  let cleanText := stripAnsi text in
  if Js.includes cleanText "INFO" then mkSpan DarkCyan cleanText
  else if Js.includes cleanText "WARN" then mkSpan Orange cleanText
  else if Js.includes cleanText "ERROR" then mkSpan RedBold cleanText
  else mkSpan Unstyled cleanText.

Section Component.

Context `{Js.Builtins} `{Browser}.

(** *** [initializeSocket] *)

(** The WebSocket scheme chosen for an address: ['wss'] when the address
    starts with ['https'], ['ws'] otherwise.  The source computes it twice,
    as [protocol] for the cookie address and as [domainUrlProtocol] for
    the page origin. *)
Definition wsProtocol (address : string) : string :=
  if Js.startsWith address "https" then "wss" else "ws".

(** The template literal
    [`${protocol}://${address}${webSocketPath}?ticket=${ticket}`]. *)
Definition socketUrl (protocol address webSocketPath ticket : string) : string :=
  protocol +:+ "://" +:+ address +:+ webSocketPath +:+ "?ticket=" +:+ ticket.

(** The outer [catch] of [initializeSocket]. *)
Definition catchInitialization (w : World) : World :=
  toastError "connectionError"
    (setSocketBlocked true
      (consoleError "Socket initialization error:" w)).

(** The inner [catch], around [new WebSocket]. *)
Definition catchConstruction (w : World) : World :=
  toastError "connectionError"
    (setSocketBlocked true
      (consoleError "WebSocket construction error:" w)).

(** [socketRef.current = new WebSocket(socketUrl)], when it does not throw:
    a fresh object enters the heap and the ref points to it. *)
Definition construct (socketUrl : string) (w : World) : World :=
  setSocketRef (Some (length (sockets w)))
    (setSockets (sockets w ++ [mkSocket socketUrl false false false]) w).

Definition installOnmessage (s : WebSocket) : WebSocket :=
  mkSocket (url s) (closed s) true (onerror s).

Definition installOnerror (s : WebSocket) : WebSocket :=
  mkSocket (url s) (closed s) (onmessage s) true.

(** First segment: the re-initialization check, then the ticket request. *)
Definition initializeSocket (w : World) : World :=
  match socketRef w with
  | Some _ => w
  | None => suspend InCreateTicket (perform (CreateTicket (type (props w))) w)
  end.

(** Second segment, resumed when [createTicket] settles. *)
Definition afterCreateTicket (ticket : option string) (w : World) : World :=
  match ticket with
  | Some t => suspend (InGetCookies t) (perform GetCookies w)
  | None => catchInitialization w
  end.

(** Third segment, resumed when [getCookies] settles: everything from the
    decoding of the address to the installation of the handlers runs
    without suspension. *)
Definition afterGetCookies (ticket : string)
    (cookies : option (gmap string string)) (w : World) : World :=
  match cookies with
  | None => catchInitialization w
  | Some cookies =>
      match Js.decodeURIComponent (Js.toStringOrUndefined (cookies !! "add")) with
      | None => catchInitialization w
      | Some cookieAddress =>
          let protocol := wsProtocol cookieAddress in
          let address := Js.stripHttpScheme cookieAddress in
          let domainUrlProtocol := wsProtocol origin in
          if negb (String.eqb protocol domainUrlProtocol)
          then setSocketBlocked true w
          else
            let socketUrl :=
              socketUrl protocol address (webSocketPath (props w)) ticket in
            let w := perform (NewWebSocket socketUrl) w in
            if webSocketThrows socketUrl
            then catchConstruction w
            else
              onCurrentSocket installOnerror
                (onCurrentSocket installOnmessage
                  (construct socketUrl w))
      end
  end.

(** The [onmessage] handler: append one entry holding the frame's data.
    It reads nothing of the socket, open or closed. *)
Definition handleMessage (data : string) (w : World) : World :=
  setHistory (fun prev => prev ++ [mkEntry data]) w.

(** The [onerror] handler. *)
Definition handleError (w : World) : World :=
  toastError "connectionError" (consoleError "WebSocket error:" w).

(** *** The effect: [cachedLogLines().then(initializeSocket)] and its cleanup *)

(** [cachedLogLines] after its [await], followed by the [then] callback. *)
Definition afterLogLines (lines : option (list string)) (w : World) : World :=
  initializeSocket
    match lines with
    | Some ls => setHistory (fun _ => map mkEntry ls) w
    | None => toastError "fetchError" w
    end.

(** The effect body.  When [cachedLogLines] returns without awaiting, its
    promise is already fulfilled and the [then] callback is the next thing
    the component runs. *)
Definition effect (w : World) : World :=
  if hasFetchedLogsRef w then initializeSocket w
  else
    let w := setHasFetchedLogs true w in
    match type (props w) with
    | Some service =>
        if Js.truthy_opt (serviceName (props w))
        then suspend InLogLines
               (perform (LogLines (default "" (serviceName (props w)))) w)
        else initializeSocket w
    | _ => initializeSocket w
    end.

(** [socket.close()] on the object itself. *)
Definition closeSocket (ws : WebSocket) : WebSocket :=
  mkSocket (url ws) true (onmessage ws) (onerror ws).

(** The function the effect returns. *)
Definition cleanup (w : World) : World :=
  match socketRef w with
  | Some s => onCurrentSocket closeSocket (perform (Close s) w)
  | None => w
  end.

(** *** Operator actions

    [handleSubmit] without its [e.preventDefault()], which touches nothing
    of the component. *)

Definition handleSubmit (w : World) : World :=
  if Js.truthy (Js.trim (input w)) && Js.truthy_opt (serviceName (props w))
  then suspend InExecute
         (perform (Execute (default "" (serviceName (props w))) (input w)) w)
  else w.

Definition afterExecute (succeeded : bool) (w : World) : World :=
  if succeeded then setInput "" w else toastError "commandError" w.

(** The text handed to the [Blob]. *)
Definition exportText (w : World) : string :=
  Js.join (String (ascii_of_nat 10) "") (map output (history w)).

Definition downloadLogs (w : World) : World :=
  perform (Download "console-logs.txt" (exportText w)) w.

Definition clearLogs (w : World) : World := setHistory (fun _ => []) w.

(** *** Rendering *)

Definition filteredHistory (w : World) : list ConsoleEntry :=
  List.filter
    (fun entry =>
       if String.eqb (filter w) "ALL" then true
       else Js.includes (Js.toLowerCase (output entry)) (Js.toLowerCase (filter w)))
    (history w).

(** What the operator sees: the alert (title and description keys) when
    [socketBlocked] is set, the entries of the filtered view (before
    [applyStyles] colours them), and whether the command form is there. *)
Record Screen := mkScreen {
  alert : option (string * string);
  entries : list ConsoleEntry;
  commandForm : bool
}.

Definition render (w : World) : Screen :=
  {| alert := if socketBlocked w then Some ("headsUp", "protocolMismatch") else None;
     entries := filteredHistory w;
     commandForm := negb (disableCommands (props w)) |}.

(** The rows of the console: [filteredHistory.map] through [applyStyles]. *)
Definition rows (w : World) : list Span :=
  map (fun entry => applyStyles (output entry)) (filteredHistory w).

(** *** The event loop

    A settlement that names no suspended continuation of its kind, and a
    socket event for an object that was never constructed, do nothing.  A
    socket event runs the handler installed on the object; the form's
    events reach the component only when the form is rendered. *)

Definition step (w : World) (ev : Event) : World :=
  match ev with
  | EffectRun => effect w
  | EffectCleanup => cleanup w
  | LogLinesSettled id lines =>
      match awaiting w id with
      | Some InLogLines => afterLogLines lines (resume id w)
      | _ => w
      end
  | TicketSettled id ticket =>
      match awaiting w id with
      | Some InCreateTicket => afterCreateTicket ticket (resume id w)
      | _ => w
      end
  | CookiesSettled id cookies =>
      match awaiting w id with
      | Some (InGetCookies ticket) => afterGetCookies ticket cookies (resume id w)
      | _ => w
      end
  | ExecuteSettled id succeeded =>
      match awaiting w id with
      | Some InExecute => afterExecute succeeded (resume id w)
      | _ => w
      end
  | SocketMessage s data =>
      match sockets w !! s with
      | Some ws => if onmessage ws then handleMessage data w else w
      | None => w
      end
  | SocketError s =>
      match sockets w !! s with
      | Some ws => if onerror ws then handleError w else w
      | None => w
      end
  | InputChange v => if disableCommands (props w) then w else setInput v w
  | FilterChange v => setFilter v w
  | Submit => if disableCommands (props w) then w else handleSubmit w
  | DownloadClick => downloadLogs w
  | ClearClick => clearLogs w
  end.

Definition run (w : World) (evs : list Event) : World := fold_left step evs w.

End Component.

End ServiceConsole.

(** ** Concrete platforms for the worked examples

    The built-ins restricted to ASCII text without escape sequences, on
    which they agree with the browser's: decoding is the identity on a
    string without a percent sign, lower-casing maps [A-Z] to [a-z], and
    trimming removes spaces, tabs and line breaks at both ends. *)

Module Sample.

Definition lowerAscii (c : ascii) : ascii :=
  let n := nat_of_ascii c in
  if ((65 <=? n) && (n <=? 90))%nat then ascii_of_nat (n + 32) else c.

Fixpoint lowerString (s : string) : string :=
  match s with
  | EmptyString => EmptyString
  | String c s' => String (lowerAscii c) (lowerString s')
  end.

Definition isSpace (c : ascii) : bool :=
  let n := nat_of_ascii c in
  ((n =? 32) || ((9 <=? n) && (n <=? 13)))%nat.

Fixpoint trimStart (s : string) : string :=
  match s with
  | EmptyString => EmptyString
  | String c s' => if isSpace c then trimStart s' else s
  end.

Fixpoint trimEnd (s : string) : string :=
  match s with
  | EmptyString => EmptyString
  | String c s' =>
      let t := trimEnd s' in
      if isSpace c && String.eqb t "" then "" else String c t
  end.

Definition decodePlain (s : string) : option string :=
  if Js.includes s "%" then None else Some s.

Definition builtins : Js.Builtins :=
  {| Js.decodeURIComponent := decodePlain;
     Js.toLowerCase := lowerString;
     Js.trim := fun s => trimEnd (trimStart s) |}.

(** A dashboard served over plain HTTP, and one served over HTTPS; in both
    the socket constructor accepts every URL. *)
Definition httpPage : ServiceConsole.Browser :=
  {| ServiceConsole.origin := "http://dashboard.example";
     ServiceConsole.webSocketThrows := fun _ => false |}.

Definition httpsPage : ServiceConsole.Browser :=
  {| ServiceConsole.origin := "https://dashboard.example";
     ServiceConsole.webSocketThrows := fun _ => false |}.

(** A page whose socket constructor rejects every URL. *)
Definition strictPage : ServiceConsole.Browser :=
  {| ServiceConsole.origin := "http://dashboard.example";
     ServiceConsole.webSocketThrows := fun _ => true |}.

(** A node console and a service console. *)
Definition nodeProps : ServiceConsole.ServiceConsoleProps :=
  ServiceConsole.mkProps "/node/Node-1/liveConsole" None true
    (Some ServiceConsole.node).

Definition serviceProps : ServiceConsole.ServiceConsoleProps :=
  ServiceConsole.mkProps "/service/Lobby-1/liveLog" (Some "Lobby-1") false
    (Some ServiceConsole.service).

(** Session cookies as [getCookies] returns them. *)
Definition httpCookies : gmap string string :=
  {[ "add" := "http://cloud.example:2812/api/v3" ]}.

Definition httpsCookies : gmap string string :=
  {[ "add" := "https://cloud.example/api/v3" ]}.

(** A server that answers every request with an empty JSON object, read by
    a codec that knows that one document. *)
Definition runtime : ServerApi.Runtime :=
  {| ServerApi.JSON_parse := fun s =>
       if String.eqb s "{}" then Some (ServerApi.JObject []) else None;
     ServerApi.JSON_stringify := fun _ => "{}";
     ServerApi.urlSearchParams := fun _ => "";
     ServerApi.fetch := fun _ => Some (ServerApi.mkResponse true 200 "{}") |}.

(** Session cookies of a signed-in operator. *)
Definition sessionCookies : gmap string string :=
  {[ "at" := "eyJhbGciOi"; "add" := "http://cloud.example:2812/api/v3" ]}.

(** The rendering of a JSON value that is not a string inside a template
    literal, for the one value the examples meet. *)
Definition templating : UserPage.Templating :=
  {| UserPage.stringOf := fun _ => "[object Object]" |}.

End Sample.

(** ** The vocabulary of the specification *)

Module Spec.

Import ServiceConsole.

(** The secure/insecure classification of an address or origin, as the
    component reads it off the text. *)
Inductive Classification : Type := Secure | Insecure.

Definition classify (address : string) : Classification :=
  if Js.startsWith address "https" then Secure else Insecure.

(** [Selects P buffer view]: [view] is the subsequence of [buffer] that keeps,
    in order, exactly the elements satisfying [P]. *)
Inductive Selects {A : Type} (P : A -> Prop) : list A -> list A -> Prop :=
| Selects_nil : Selects P [] []
| Selects_keep x buffer view :
    P x -> Selects P buffer view -> Selects P (x :: buffer) (x :: view)
| Selects_drop x buffer view :
    ~ P x -> Selects P buffer view -> Selects P (x :: buffer) view.

(** The [socketRef] that goes with a heap: the socket constructed last. *)
Definition latest (heap : list WebSocket) : option nat :=
  match length heap with
  | O => None
  | S n => Some n
  end.

Section Predicates.

Context `{Js.Builtins} `{Browser}.

(** The text of [entry] contains [level], letter case ignored. *)
Definition ContainsLevel (level : string) (entry : ConsoleEntry) : Prop :=
  Js.includes (Js.toLowerCase (output entry)) (Js.toLowerCase level) = true.

(** A segment of [initializeSocket] run from [w] got as far as calling the
    socket constructor. *)
Definition AttemptsSocket (w w' : World) : Prop :=
  exists socketUrl rest, calls w' = calls w ++ NewWebSocket socketUrl :: rest.

(** The guard of a connect attempt let the attempt through: the event
    resumes [initializeSocket] with cookies whose address has the page's
    classification. *)
Definition GuardPassed (w : World) (ev : Event) : Prop :=
  exists id ticket cookies cookieAddress,
    ev = CookiesSettled id (Some cookies) /\
    awaiting w id = Some (InGetCookies ticket) /\
    Js.decodeURIComponent (Js.toStringOrUndefined (cookies !! "add"))
      = Some cookieAddress /\
    classify cookieAddress = classify origin.

(** The operator is told of a connection error and of nothing else: the
    notification is raised and the protocol-mismatch alert is not on
    screen. *)
Definition SurfacesConnectionErrorOnly (w : World) : Prop :=
  In (ToastError "connectionError") (calls w) /\ alert (render w) = None.






(** The shape of a heap the component can build: every socket has both
    handlers and an address of the page's scheme, and the ref holds the
    socket constructed last. *)
Definition WellFormed (w : World) : Prop :=
  (forall s ws,
      sockets w !! s = Some ws ->
      onmessage ws = true /\ onerror ws = true /\
      Js.startsWith (url ws) (wsProtocol origin +:+ "://") = true) /\
  socketRef w = latest (sockets w).

End Predicates.

(** Counting the calls of a kind made so far, and the continuations of a
    kind still suspended. *)
Definition isLogLines (c : Call) : bool :=
  match c with LogLines _ => true | _ => false end.
Definition isCreateTicket (c : Call) : bool :=
  match c with CreateTicket _ => true | _ => false end.
Definition isNewWebSocket (c : Call) : bool :=
  match c with NewWebSocket _ => true | _ => false end.

Definition made (kind : Call -> bool) (w : World) : nat :=
  length (List.filter kind (calls w)).



(** The delivery of a message event to each of the listed sockets in turn. *)
Definition deliveries (msgs : list (nat * string)) : list Event :=
  map (fun m => SocketMessage (fst m) (snd m)) msgs.

(** The socket exists and has the component's message handler. *)
Definition Listening (w : World) (s : nat) : Prop :=
  exists ws, sockets w !! s = Some ws /\ onmessage ws = true.


(** The characters of a string, and the string of a well-formed colour
    sequence with the given parameters. *)
Definition chars (s : string) : list ascii := list_ascii_of_string s.

Definition sgr (parameters : string) : string :=
  String (ascii_of_nat 27) (String "[" (parameters +:+ "m")).


End Spec.

(** * Properties *)

(** ** Server API helpers *)

Section ServerApiFacts.

Context `{Js.Builtins} `{ServerApi.Runtime}.
Import ServerApi.

Lemma session_check_fails (accessToken address : option string) :
  accessToken = None \/ address = None ->
  negb (Js.truthy_opt accessToken) || negb (Js.truthy_opt address) = true.
Proof.
  intros [-> | ->]; simpl; [reflexivity | apply orb_true_r].
Qed.

(** C9.  When the bearer credential (cookie [at]) or the endpoint address
    (cookie [add]) is absent from the session, every call through
    [serverApiGet] or [serverApiPost], ticket issuance included, fails
    with [Unauthorized] and has issued no network request. *)
Theorem unauthorized_before_network (cookie : gmap string string) :
  cookie !! "at" = None \/ cookie !! "add" = None ->
  (forall url params, serverApiGet cookie url params = ([], inl Unauthorized)) /\
  (forall url body, serverApiPost cookie url body = ([], inl Unauthorized)) /\
  (forall type, createTicket cookie type = ([], inl Unauthorized)).
Proof.
  intros Habsent.
  pose proof (session_check_fails _ _ Habsent) as Hcheck.
  assert (Hpost : forall url body,
             serverApiPost cookie url body = ([], inl Unauthorized)).
  { intros url body. unfold serverApiPost. cbv zeta. now rewrite Hcheck. }
  split; [| split].
  - intros url params. unfold serverApiGet. cbv zeta. now rewrite Hcheck.
  - exact Hpost.
  - intros type. apply Hpost.
Qed.

End ServerApiFacts.

Lemma unauthorized_before_network_witness :
  let cookie : gmap string string := {[ "at" := "eyJhbGciOi" ]} in
  (cookie !! "at" = None \/ cookie !! "add" = None) /\
  @ServerApi.createTicket Sample.builtins Sample.runtime cookie "service"
    = ([], inl ServerApi.Unauthorized).
Proof.
  intros cookie.
  assert (Habsent : cookie !! "at" = None \/ cookie !! "add" = None)
    by (right; reflexivity).
  split; [exact Habsent |].
  apply (@unauthorized_before_network Sample.builtins Sample.runtime cookie Habsent).
Defined.

(** With both cookies present the request does go out, carrying the bearer
    token, so the check above is the only thing that holds it back. *)
Example ticket_request_issued :
  @ServerApi.createTicket Sample.builtins Sample.runtime
    {[ "at" := "eyJhbGciOi"; "add" := "http://cloud.example:2812/api/v3" ]}
    "service"
  = ([ServerApi.mkRequest "http://cloud.example:2812/api/v3/api/auth/ticket"
        "POST"
        [("Content-Type", "application/json");
         ("Authorization", "Bearer eyJhbGciOi")]
        (Some "{}")],
     inr (ServerApi.JObject [])).
Proof. vm_compute. reflexivity. Qed.

(** ** The console: buffer, view and export *)

Section BufferFacts.

Context `{Js.Builtins} `{ServiceConsole.Browser}.
Import ServiceConsole Spec.

Lemma filter_changes_keep_history (levels : list string) (w : World) :
  history (run w (map FilterChange levels)) = history w /\
  calls (run w (map FilterChange levels)) = calls w.
Proof.
  revert w. induction levels as [| level levels IH]; intros w; simpl.
  - now split.
  - destruct (IH (setFilter level w)) as [Hh Hc]. now rewrite Hh, Hc.
Qed.

(** C6.  Whatever the buffer holds and whatever filters the operator has
    chosen, one after the other, the download is made of every entry of
    the buffer, joined by line feeds: choosing filters changes neither the
    buffer nor the exported text nor the file handed to the operator. *)
Theorem export_ignores_filter (w : World) (levels : list string) :
  let w' := run w (map FilterChange levels) in
  history w' = history w /\
  exportText w'
    = Js.join (String (ascii_of_nat 10) "") (map output (history w)) /\
  calls (step w' DownloadClick)
    = calls w ++ [Download "console-logs.txt"
                    (Js.join (String (ascii_of_nat 10) "") (map output (history w)))].
Proof.
  intros w'. subst w'.
  destruct (filter_changes_keep_history levels w) as [Hhistory Hcalls].
  split; [exact Hhistory |].
  unfold step, downloadLogs, exportText. simpl.
  rewrite Hhistory, Hcalls. now split.
Qed.

Lemma filter_selects {A : Type} (keep : A -> bool) (buffer : list A) :
  Selects (fun x => keep x = true) buffer (List.filter keep buffer).
Proof.
  induction buffer as [| x buffer IH]; simpl.
  - constructor.
  - destruct (keep x) eqn:Hx.
    + now apply Selects_keep.
    + apply Selects_drop; [congruence | exact IH].
Qed.

Lemma filter_is_sublist {A : Type} (keep : A -> bool) (buffer : list A) :
  List.filter keep buffer `sublist_of` buffer.
Proof.
  induction buffer as [| x buffer IH]; simpl.
  - constructor.
  - destruct (keep x); [now apply sublist_skip | now apply sublist_cons].
Qed.

(** The reserved value: with ['ALL'] the view is the whole buffer. *)
Lemma filteredHistory_ALL (w : World) :
  filter w = "ALL" -> filteredHistory w = history w.
Proof.
  intros Hall. unfold filteredHistory. rewrite Hall. simpl.
  induction (history w) as [| e l IH]; simpl; [reflexivity | now rewrite IH].
Qed.

(** C7, as amended.  For every buffer and every level string other than
    the reserved ['ALL'], the filtered view keeps, in buffer order,
    exactly the entries whose text contains the level with letter case
    ignored; it is a subsequence of the buffer, and choosing a filter
    leaves the buffer as it was. *)
Theorem filtered_view_selects_level (w : World) :
  filter w <> "ALL" ->
  Selects (ContainsLevel (filter w)) (history w) (filteredHistory w) /\
  filteredHistory w `sublist_of` history w /\
  (forall level, history (step w (FilterChange level)) = history w).
Proof.
  intros Hlevel. apply String.eqb_neq in Hlevel.
  unfold filteredHistory, ContainsLevel. rewrite Hlevel.
  split; [| split].
  - apply (filter_selects
             (fun entry => Js.includes (Js.toLowerCase (output entry))
                                       (Js.toLowerCase (filter w)))).
  - apply filter_is_sublist.
  - reflexivity.
Qed.

End BufferFacts.

(** The scenario of the specification: the cached tail seeds three lines,
    the operator picks [ERROR], the view shows one line and the download
    still carries all three. *)
Example export_three_lines :
  let w := @ServiceConsole.run Sample.builtins Sample.httpPage
             (ServiceConsole.initial Sample.serviceProps)
             [ServiceConsole.EffectRun;
              ServiceConsole.LogLinesSettled 0 (Some ["a"; "b ERROR"; "c"]);
              ServiceConsole.FilterChange "ERROR";
              ServiceConsole.DownloadClick] in
  map ServiceConsole.output (@ServiceConsole.filteredHistory Sample.builtins w)
    = ["b ERROR"] /\
  last (ServiceConsole.calls w)
    = Some (ServiceConsole.Download "console-logs.txt"
              ("a" +:+ String (ascii_of_nat 10) "b ERROR"
                   +:+ String (ascii_of_nat 10) "c")).
Proof. vm_compute. split; reflexivity. Qed.

Lemma filtered_view_selects_level_witness :
  let w := @ServiceConsole.run Sample.builtins Sample.httpPage
             (ServiceConsole.initial Sample.serviceProps)
             [ServiceConsole.EffectRun;
              ServiceConsole.LogLinesSettled 0 (Some ["a"; "b ERROR"; "c"]);
              ServiceConsole.FilterChange "error"] in
  ServiceConsole.filter w <> "ALL" /\
  @Spec.Selects _ (@Spec.ContainsLevel Sample.builtins (ServiceConsole.filter w))
    (ServiceConsole.history w)
    (@ServiceConsole.filteredHistory Sample.builtins w).
Proof.
  intros w.
  assert (Hlevel : ServiceConsole.filter w <> "ALL") by (vm_compute; discriminate).
  split; [exact Hlevel |].
  apply (@filtered_view_selects_level Sample.builtins Sample.httpPage w Hlevel).
Defined.

(** C7 as stated fails at the level string ['ALL']: the view of a buffer
    holding the single line [boot] is that line, which does not contain
    [all]. *)
Lemma filtered_view_ALL_counterexample :
  let w := @ServiceConsole.run Sample.builtins Sample.httpPage
             (ServiceConsole.initial Sample.nodeProps)
             [ServiceConsole.EffectRun;
              ServiceConsole.TicketSettled 0 (Some "t1");
              ServiceConsole.CookiesSettled 1 (Some Sample.httpCookies);
              ServiceConsole.SocketMessage 0 "boot";
              ServiceConsole.FilterChange "ALL"] in
  ServiceConsole.filter w = "ALL" /\
  ~ @Spec.Selects _ (@Spec.ContainsLevel Sample.builtins (ServiceConsole.filter w))
      (ServiceConsole.history w)
      (@ServiceConsole.filteredHistory Sample.builtins w).
Proof.
  intros w. split; [reflexivity |].
  vm_compute. intros Hsel.
  inversion Hsel as [| x buffer view Hkeep _ | x buffer view _ Hrest]; subst.
  - discriminate Hkeep.
  - inversion Hrest.
Qed.

(** ** The console: the protocol guard *)

Section GuardFacts.

Context `{Js.Builtins} `{ServiceConsole.Browser}.
Import ServiceConsole Spec.

Lemma classify_eq_dec (a b : string) :
  {classify a = classify b} + {classify a <> classify b}.
Proof. decide equality. Qed.

(** The comparison of the two scheme names is the comparison of the two
    classifications. *)
Lemma wsProtocol_eqb (a b : string) :
  String.eqb (wsProtocol a) (wsProtocol b) = true <-> classify a = classify b.
Proof.
  unfold wsProtocol, classify.
  destruct (Js.startsWith a "https"), (Js.startsWith b "https"); simpl;
    split; intros E; (reflexivity || discriminate E).
Qed.

Lemma wsProtocol_eqb_false (a b : string) :
  String.eqb (wsProtocol a) (wsProtocol b) = false <-> classify a <> classify b.
Proof.
  rewrite <- wsProtocol_eqb. destruct (String.eqb _ _); split; intros E;
    (reflexivity || discriminate E || (try now contradiction E); auto).
Qed.

(** A mismatch ends the third segment at once: the flag is set and nothing
    else happens. *)
Lemma afterGetCookies_blocked w ticket cookies cookieAddress :
  Js.decodeURIComponent (Js.toStringOrUndefined (cookies !! "add"))
    = Some cookieAddress ->
  classify cookieAddress <> classify origin ->
  afterGetCookies ticket (Some cookies) w = setSocketBlocked true w.
Proof.
  intros Hdec Hdiff. unfold afterGetCookies. rewrite Hdec.
  apply wsProtocol_eqb_false in Hdiff. cbv zeta. now rewrite Hdiff.
Qed.

(** A match takes the segment to the constructor call. *)
Lemma afterGetCookies_allowed w ticket cookies cookieAddress :
  Js.decodeURIComponent (Js.toStringOrUndefined (cookies !! "add"))
    = Some cookieAddress ->
  classify cookieAddress = classify origin ->
  AttemptsSocket w (afterGetCookies ticket (Some cookies) w).
Proof.
  intros Hdec Hsame. unfold afterGetCookies, AttemptsSocket. rewrite Hdec.
  apply wsProtocol_eqb in Hsame. cbv zeta. rewrite Hsame. simpl negb. cbv iota.
  eexists.
  destruct (webSocketThrows _).
  - eexists. unfold catchConstruction, toastError, consoleError. simpl.
    rewrite <- !app_assoc. simpl. reflexivity.
  - exists []. reflexivity.
Qed.

Lemma blocked_attempts_nothing w :
  ~ AttemptsSocket w (setSocketBlocked true w).
Proof.
  intros (socketUrl & rest & Hcalls). simpl in Hcalls.
  rewrite <- (app_nil_r (calls w)) in Hcalls at 1.
  apply app_inv_head in Hcalls. discriminate Hcalls.
Qed.

(** C4.  Once the endpoint address is known, the third segment of
    [initializeSocket] blocks the attempt exactly when the classification
    of the address differs from the classification of the page origin, and
    goes on to the socket constructor exactly when the two agree. *)
Theorem guard_is_classification_equality w ticket cookies cookieAddress :
  Js.decodeURIComponent (Js.toStringOrUndefined (cookies !! "add"))
    = Some cookieAddress ->
  let w' := afterGetCookies ticket (Some cookies) w in
  (classify cookieAddress <> classify origin <-> w' = setSocketBlocked true w) /\
  (classify cookieAddress = classify origin <-> AttemptsSocket w w').
Proof.
  intros Hdec w'. subst w'. split; split.
  - now apply afterGetCookies_blocked.
  - intros Hblocked Hsame.
    apply (blocked_attempts_nothing w). rewrite <- Hblocked.
    now apply afterGetCookies_allowed with (cookieAddress := cookieAddress).
  - now apply afterGetCookies_allowed.
  - intros Hattempt.
    destruct (classify_eq_dec cookieAddress origin) as [Hsame | Hdiff];
      [exact Hsame |].
    rewrite (afterGetCookies_blocked _ _ _ _ Hdec Hdiff) in Hattempt.
    now apply blocked_attempts_nothing in Hattempt.
Qed.

End GuardFacts.

Lemma guard_is_classification_equality_witness :
  let w := @ServiceConsole.run Sample.builtins Sample.httpsPage
             (ServiceConsole.initial Sample.nodeProps)
             [ServiceConsole.EffectRun;
              ServiceConsole.TicketSettled 0 (Some "t1")] in
  @Js.decodeURIComponent Sample.builtins
     (Js.toStringOrUndefined (Sample.httpCookies !! "add"))
    = Some "http://cloud.example:2812/api/v3" /\
  (Spec.classify "http://cloud.example:2812/api/v3"
     <> Spec.classify (@ServiceConsole.origin Sample.httpsPage) <->
   @ServiceConsole.afterGetCookies Sample.builtins Sample.httpsPage
     "t1" (Some Sample.httpCookies) w
     = ServiceConsole.setSocketBlocked true w).
Proof.
  intros w.
  assert (Hdec : @Js.decodeURIComponent Sample.builtins
                   (Js.toStringOrUndefined (Sample.httpCookies !! "add"))
                 = Some "http://cloud.example:2812/api/v3")
    by (vm_compute; reflexivity).
  split; [exact Hdec |].
  exact (proj1 (@guard_is_classification_equality Sample.builtins Sample.httpsPage
                  w "t1" Sample.httpCookies _ Hdec)).
Defined.

(** ** The console: connection lifecycle *)

Section LifecycleFacts.

Context `{Js.Builtins} `{ServiceConsole.Browser}.
Import ServiceConsole Spec.

Lemma run_snoc w evs ev : run w (evs ++ [ev]) = step (run w evs) ev.
Proof. unfold run. now rewrite fold_left_app. Qed.

Lemma run_app w evs1 evs2 : run w (evs1 ++ evs2) = run (run w evs1) evs2.
Proof. unfold run. now rewrite fold_left_app. Qed.

(** What the third segment does to the heap of sockets: nothing, unless
    the guard lets it through and the constructor accepts the URL, in
    which case one socket is added. *)
Lemma afterGetCookies_sockets ticket cookies w :
  sockets (afterGetCookies ticket cookies w) = sockets w \/
  (exists c cookieAddress,
      cookies = Some c /\
      Js.decodeURIComponent (Js.toStringOrUndefined (c !! "add"))
        = Some cookieAddress /\
      classify cookieAddress = classify origin /\
      length (sockets (afterGetCookies ticket cookies w)) = S (length (sockets w))).
Proof.
  unfold afterGetCookies.
  destruct cookies as [c |]; [| now left].
  destruct (Js.decodeURIComponent _) as [cookieAddress |] eqn:Hdec; [| now left].
  cbv zeta.
  destruct (String.eqb _ _) eqn:Hguard; simpl negb; cbv iota; [| now left].
  destruct (webSocketThrows _); [now left |].
  right. exists c, cookieAddress.
  repeat split; [exact Hdec | now apply wsProtocol_eqb |].
  unfold onCurrentSocket. simpl.
  rewrite !length_alter, length_app. simpl. lia.
Qed.

Lemma initializeSocket_sockets w : sockets (initializeSocket w) = sockets w.
Proof. unfold initializeSocket. now destruct (socketRef w). Qed.

Lemma afterLogLines_sockets lines w : sockets (afterLogLines lines w) = sockets w.
Proof.
  unfold afterLogLines. rewrite initializeSocket_sockets. now destruct lines.
Qed.

Lemma effect_sockets w : sockets (effect w) = sockets w.
Proof.
  unfold effect. destruct (hasFetchedLogsRef w).
  - apply initializeSocket_sockets.
  - cbv zeta. destruct (type _) as [[|] |];
      [destruct (Js.truthy_opt _) | |];
      rewrite ?initializeSocket_sockets; reflexivity.
Qed.

Lemma cleanup_sockets_length w : length (sockets (cleanup w)) = length (sockets w).
Proof.
  unfold cleanup, onCurrentSocket. destruct (socketRef w) eqn:Href; simpl.
  - rewrite Href. simpl. apply length_alter.
  - reflexivity.
Qed.

(** One task of the event loop adds a socket to the heap only by passing
    the guard, and then adds exactly one. *)
Lemma step_sockets w ev :
  length (sockets (step w ev)) = length (sockets w) \/
  (GuardPassed w ev /\ length (sockets (step w ev)) = S (length (sockets w))).
Proof.
  destruct ev as [ | | id lines | id ticket | id cookies | id ok
                 | s data | s | v | v | | | ]; simpl.
  - left. now rewrite effect_sockets.
  - left. apply cleanup_sockets_length.
  - left. destruct (awaiting w id) as [[ | | ? | ] |]; try reflexivity.
    now rewrite afterLogLines_sockets.
  - left. destruct (awaiting w id) as [[ | | ? | ] |]; try reflexivity.
    now destruct ticket.
  - destruct (awaiting w id) as [[ | | ticket | ] |] eqn:Hwait; try now left.
    destruct (afterGetCookies_sockets ticket cookies (resume id w))
      as [Hsame | (c & cookieAddress & -> & Hdec & Hclass & Hlen)].
    + left. now rewrite Hsame.
    + right. split; [| exact Hlen].
      exists id, ticket, c, cookieAddress. auto.
  - left. destruct (awaiting w id) as [[ | | ? | ] |]; try reflexivity.
    now destruct ok.
  - left. destruct (sockets w !! s) as [ws |]; [| reflexivity].
    now destruct (onmessage ws).
  - left. destruct (sockets w !! s) as [ws |]; [| reflexivity].
    now destruct (onerror ws).
  - left. now destruct (disableCommands (props w)).
  - now left.
  - left. unfold handleSubmit.
    destruct (disableCommands (props w)); [reflexivity |].
    now destruct (_ && _).
  - now left.
  - now left.
Qed.

(** Every socket of a reachable world was constructed by an earlier task
    of the trace that passed the guard. *)
Lemma socket_has_guard_pass p evs s :
  s < length (sockets (run (initial p) evs)) ->
  exists before ev after,
    evs = before ++ ev :: after /\
    GuardPassed (run (initial p) before) ev /\
    length (sockets (run (initial p) before)) = s.
Proof.
  induction evs as [| ev evs IH] using rev_ind; intros Hs.
  - simpl in Hs. lia.
  - rewrite run_snoc in Hs.
    destruct (Nat.lt_ge_cases s (length (sockets (run (initial p) evs))))
      as [Hold | Hnew].
    + destruct (IH Hold) as (before & ev' & after & -> & Hpass & Hlen).
      exists before, ev', (after ++ [ev]).
      rewrite <- app_assoc. simpl. auto.
    + destruct (step_sockets (run (initial p) evs) ev) as [Hsame | [Hpass Hlen]].
      * rewrite Hsame in Hs. lia.
      * exists evs, ev, []. repeat split; [exact Hpass | lia].
Qed.

(** C1.  In every trace of the console, a delivered message is appended
    to the buffer only for a socket that an earlier task of the same
    trace constructed after its guard check let the attempt through; and
    whenever the classification of the endpoint differs from the page
    origin's, the attempt ends there: the socket constructor is not
    called, the heap of sockets and the socket ref stay as they were, and
    the continuation of the attempt is gone. *)
Theorem streaming_requires_guard_pass (p : ServiceConsoleProps) (evs : list Event) :
  let w := run (initial p) evs in
  (forall s data,
      history (step w (SocketMessage s data)) <> history w ->
      exists before ev after,
        evs = before ++ ev :: after /\
        GuardPassed (run (initial p) before) ev /\
        length (sockets (run (initial p) before)) = s) /\
  (forall id ticket cookies cookieAddress,
      awaiting w id = Some (InGetCookies ticket) ->
      Js.decodeURIComponent (Js.toStringOrUndefined (cookies !! "add"))
        = Some cookieAddress ->
      classify cookieAddress <> classify origin ->
      let w' := step w (CookiesSettled id (Some cookies)) in
      calls w' = calls w /\ sockets w' = sockets w /\
      socketRef w' = socketRef w /\ socketBlocked w' = true /\
      awaiting w' id = None).
Proof.
  intros w. split.
  - intros s data Hgrows. apply socket_has_guard_pass. fold w.
    simpl in Hgrows.
    destruct (sockets w !! s) as [ws |] eqn:Hs; [| now contradiction Hgrows].
    now apply lookup_lt_Some in Hs.
  - intros id ticket cookies cookieAddress Hwait Hdec Hdiff w'. subst w'.
    unfold step. rewrite Hwait.
    rewrite (afterGetCookies_blocked _ _ _ _ Hdec Hdiff). simpl.
    repeat split.
    unfold awaiting in *. simpl.
    destruct (pending w !! id) as [k |] eqn:Hk; [| discriminate Hwait].
    rewrite list_lookup_insert_eq; [reflexivity |].
    now apply lookup_lt_Some in Hk.
Qed.

End LifecycleFacts.

(** ** The console: command submission *)

Section CommandFacts.

Context `{Js.Builtins} `{ServiceConsole.Browser}.
Import ServiceConsole Spec.

(** Case analysis on the innermost scrutinee of the goal. *)
Ltac case_inner :=
  match goal with
  | |- context [match ?x with _ => _ end] =>
      lazymatch x with
      | context [match _ with _ => _ end] => fail
      | _ => destruct x eqn:?
      end
  end.

Ltac unfold_segments :=
  unfold effect, cleanup, afterLogLines, afterCreateTicket, afterGetCookies,
    afterExecute, handleMessage, handleError, handleSubmit, downloadLogs,
    clearLogs, initializeSocket, catchInitialization, catchConstruction,
    onCurrentSocket, construct, toastError, consoleError, suspend, resume.

(** Nothing to send: the handler returns without a call. *)
Lemma handleSubmit_nothing_to_send w :
  Js.trim (input w) = "" \/
  serviceName (props w) = None \/ serviceName (props w) = Some "" ->
  handleSubmit w = w.
Proof.
  unfold handleSubmit.
  intros [-> | [-> | ->]]; simpl; rewrite ?andb_false_r; reflexivity.
Qed.

(** The only tasks that change the input field. *)
Lemma step_input w ev :
  input (step w ev) <> input w ->
  (exists v, ev = InputChange v) \/
  (exists id, ev = ExecuteSettled id true /\ awaiting w id = Some InExecute).
Proof.
  destruct ev as [ | | id lines | id ticket | id cookies | id ok
                 | s data | s | v | v | | | ]; simpl; intros Hchanged;
    try (left; eexists; reflexivity);
    try (exfalso; apply Hchanged; clear Hchanged;
         unfold_segments; repeat (case_inner; simpl); reflexivity).
  destruct (awaiting w id) as [[ | | ? | ] |] eqn:Hwait;
    try (exfalso; apply Hchanged; reflexivity).
  destruct ok.
  - right. now exists id.
  - exfalso. apply Hchanged. reflexivity.
Qed.

(** C10.  A submission with nothing to send (the input is empty once
    trimmed, or no service name is set) makes no remote call and changes
    nothing; a send that fails leaves the input field as it is and
    reports the failure; and the only tasks that change the field are the
    operator's typing and the success of a send. *)
Theorem input_kept_unless_send_succeeds (w : World) :
  (Js.trim (input w) = "" \/
   serviceName (props w) = None \/ serviceName (props w) = Some "" ->
   step w Submit = w) /\
  (forall id,
      awaiting w id = Some InExecute ->
      let w' := step w (ExecuteSettled id false) in
      input w' = input w /\ calls w' = calls w ++ [ToastError "commandError"]) /\
  (forall ev,
      input (step w ev) <> input w ->
      (exists v, ev = InputChange v) \/
      (exists id, ev = ExecuteSettled id true /\ awaiting w id = Some InExecute)).
Proof.
  split; [| split].
  - intros Hnothing. simpl.
    destruct (disableCommands (props w)); [reflexivity |].
    now apply handleSubmit_nothing_to_send.
  - intros id Hwait w'. subst w'. simpl. rewrite Hwait. now split.
  - apply step_input.
Qed.

End CommandFacts.

(** ** The console: what the operator is told of a failure *)

Section ErrorFacts.

Context `{Js.Builtins} `{ServiceConsole.Browser}.
Import ServiceConsole Spec.

Lemma alert_of_blocked w :
  socketBlocked w = true -> alert (render w) = Some ("headsUp", "protocolMismatch").
Proof. intros Hb. unfold render. simpl. now rewrite Hb. Qed.

(** C5, as amended.  A ticket request that fails and a socket constructor
    that throws each raise the connection-error notification, which a
    scheme mismatch does not raise; all three set the same blocked flag,
    so the protocol-mismatch alert is on screen after each of them and no
    socket has been added.  An error event of a constructed socket raises
    the connection-error notification and leaves the flag as it was. *)
Theorem failures_notify_and_set_blocked_flag (w : World) :
  (forall id,
      awaiting w id = Some InCreateTicket ->
      let w' := step w (TicketSettled id None) in
      calls w' = calls w ++ [ConsoleError "Socket initialization error:";
                             ToastError "connectionError"] /\
      socketBlocked w' = true /\
      alert (render w') = Some ("headsUp", "protocolMismatch") /\
      sockets w' = sockets w) /\
  (forall id ticket cookies cookieAddress,
      awaiting w id = Some (InGetCookies ticket) ->
      Js.decodeURIComponent (Js.toStringOrUndefined (cookies !! "add"))
        = Some cookieAddress ->
      let target := socketUrl (wsProtocol cookieAddress)
                      (Js.stripHttpScheme cookieAddress)
                      (webSocketPath (props w)) ticket in
      let w' := step w (CookiesSettled id (Some cookies)) in
      (classify cookieAddress = classify origin ->
       webSocketThrows target = true ->
       calls w' = calls w ++ [NewWebSocket target;
                              ConsoleError "WebSocket construction error:";
                              ToastError "connectionError"] /\
       socketBlocked w' = true /\
       alert (render w') = Some ("headsUp", "protocolMismatch") /\
       sockets w' = sockets w) /\
      (classify cookieAddress <> classify origin ->
       calls w' = calls w /\
       socketBlocked w' = true /\
       alert (render w') = Some ("headsUp", "protocolMismatch") /\
       sockets w' = sockets w)) /\
  (forall s ws,
      sockets w !! s = Some ws ->
      onerror ws = true ->
      let w' := step w (SocketError s) in
      calls w' = calls w ++ [ConsoleError "WebSocket error:";
                             ToastError "connectionError"] /\
      socketBlocked w' = socketBlocked w /\
      sockets w' = sockets w).
Proof.
  split; [| split].
  - intros id Hwait w'. subst w'. simpl. rewrite Hwait. simpl.
    rewrite <- app_assoc. now repeat split.
  - intros id ticket cookies cookieAddress Hwait Hdec target w'.
    subst w'. unfold step. rewrite Hwait. split.
    + intros Hsame Hthrows. unfold afterGetCookies. rewrite Hdec.
      apply wsProtocol_eqb in Hsame. cbv zeta. rewrite Hsame.
      simpl negb. cbv iota. simpl props. fold target. rewrite Hthrows.
      unfold catchConstruction, toastError, consoleError. simpl.
      rewrite <- !app_assoc. now repeat split.
    + intros Hdiff.
      rewrite (afterGetCookies_blocked _ _ _ _ Hdec Hdiff).
      now repeat split.
  - intros s ws Hs Herr w'. subst w'. simpl. rewrite Hs, Herr. simpl.
    rewrite <- app_assoc. now repeat split.
Qed.

End ErrorFacts.

(** C5 as stated fails when the ticket request is rejected: the
    connection-error notification is raised, and the protocol-mismatch
    alert is put on screen with it. *)
Lemma ticket_failure_shows_mismatch_alert :
  let w := @ServiceConsole.run Sample.builtins Sample.httpPage
             (ServiceConsole.initial Sample.nodeProps)
             [ServiceConsole.EffectRun; ServiceConsole.TicketSettled 0 None] in
  @ServiceConsole.alert (@ServiceConsole.render Sample.builtins w)
    = Some ("headsUp", "protocolMismatch") /\
  ~ @Spec.SurfacesConnectionErrorOnly Sample.builtins w.
Proof.
  intros w. split; [reflexivity |].
  intros [_ Halert]. vm_compute in Halert. discriminate Halert.
Qed.

(** ** The console: disposal *)

Section DisposalFacts.

Context `{Js.Builtins} `{ServiceConsole.Browser}.
Import ServiceConsole Spec.

Lemma cleanup_with_socket w s :
  socketRef w = Some s ->
  cleanup w = setSockets (alter closeSocket s (sockets w)) (perform (Close s) w).
Proof.
  intros Href. unfold cleanup, onCurrentSocket. rewrite Href. simpl.
  now rewrite Href.
Qed.


(** Case analysis over every branch of one task, on a world given by its
    fields. *)
Ltac branches :=
  unfold step, effect, cleanup, afterLogLines, afterCreateTicket,
    afterGetCookies, afterExecute, handleMessage, handleError, handleSubmit,
    downloadLogs, clearLogs, initializeSocket, catchInitialization,
    catchConstruction, onCurrentSocket, construct, toastError, consoleError,
    suspend, resume, awaiting;
  simpl;
  repeat (match goal with
          | |- context [match ?x with _ => _ end] =>
              lazymatch x with
              | context [match _ with _ => _ end] => fail
              | _ => destruct x eqn:?
              end
          end; simpl in * ).






End DisposalFacts.


(** ** The console: overlapping effect runs *)

Section OverlapFacts.

Context `{Js.Builtins} `{ServiceConsole.Browser}.
Import ServiceConsole Spec.

(** One call of [initializeSocket] asks for at most one ticket. *)
Lemma initializeSocket_one_ticket w :
  calls (initializeSocket w) = calls w \/
  calls (initializeSocket w) = calls w ++ [CreateTicket (type (props w))].
Proof. unfold initializeSocket. destruct (socketRef w); [now left | now right]. Qed.

(** The re-initialization check reads [socketRef], which is written only
    in the third segment: a second call made while the first is suspended
    passes the check and asks for a ticket of its own. *)
Lemma initializeSocket_twice_two_tickets w :
  socketRef w = None ->
  calls (initializeSocket (initializeSocket w))
    = calls w ++ [CreateTicket (type (props w)); CreateTicket (type (props w))] /\
  pending (initializeSocket (initializeSocket w))
    = pending w ++ [Some InCreateTicket; Some InCreateTicket].
Proof.
  intros Href. unfold initializeSocket. rewrite Href. simpl. rewrite Href. simpl.
  rewrite <- !app_assoc. now split.
Qed.

(** The first effect run of a service console asks for the cached tail and
    for nothing else; the ticket is requested when that request settles,
    after the buffer was seeded (or, on failure, left empty). *)
Lemma first_run_seeds_before_connect p name lines :
  type p = Some service ->
  serviceName p = Some name ->
  name <> "" ->
  let w1 := step (initial p) EffectRun in
  let w2 := step w1 (LogLinesSettled 0 lines) in
  calls w1 = [LogLines name] /\
  pending w1 = [Some InLogLines] /\
  history w2 = match lines with Some ls => map mkEntry ls | None => [] end /\
  calls w2 = match lines with
             | Some _ => [LogLines name; CreateTicket (Some service)]
             | None => [LogLines name; ToastError "fetchError";
                        CreateTicket (Some service)]
             end.
Proof.
  intros Htype Hname Hne w1 w2. subst w1 w2.
  apply String.eqb_neq in Hne.
  destruct p as [path sname disabled ty]. simpl in Htype, Hname. subst ty sname.
  unfold step, effect, awaiting. simpl.
  unfold Js.truthy. rewrite Hne. simpl.
  destruct lines; simpl; now repeat split.
Qed.

End OverlapFacts.

(** C3 on the code.  A node console whose effect runs twice before the
    first ticket arrives (the cleanup in between finds no socket): the
    second [initializeSocket] is not a no-op.  Two tickets are requested,
    two sockets are constructed, the ref keeps the second only, a line
    the server pushes to both is appended twice, and the next cleanup
    closes the second socket and leaves the first open. *)
Lemma overlapping_initialization_opens_two_sockets :
  let w := @ServiceConsole.run Sample.builtins Sample.httpPage
             (ServiceConsole.initial Sample.nodeProps)
             [ServiceConsole.EffectRun;
              ServiceConsole.EffectCleanup;
              ServiceConsole.EffectRun;
              ServiceConsole.TicketSettled 0 (Some "t1");
              ServiceConsole.TicketSettled 1 (Some "t2");
              ServiceConsole.CookiesSettled 2 (Some Sample.httpCookies);
              ServiceConsole.CookiesSettled 3 (Some Sample.httpCookies)] in
  ServiceConsole.calls w
    = [ServiceConsole.CreateTicket (Some ServiceConsole.node);
       ServiceConsole.CreateTicket (Some ServiceConsole.node);
       ServiceConsole.GetCookies;
       ServiceConsole.GetCookies;
       ServiceConsole.NewWebSocket
         "ws://cloud.example:2812/api/v3/node/Node-1/liveConsole?ticket=t1";
       ServiceConsole.NewWebSocket
         "ws://cloud.example:2812/api/v3/node/Node-1/liveConsole?ticket=t2"] /\
  map ServiceConsole.onmessage (ServiceConsole.sockets w) = [true; true] /\
  ServiceConsole.socketRef w = Some 1 /\
  ServiceConsole.history
    (@ServiceConsole.run Sample.builtins Sample.httpPage w
       [ServiceConsole.SocketMessage 0 "ready"; ServiceConsole.SocketMessage 1 "ready"])
    = [ServiceConsole.mkEntry "ready"; ServiceConsole.mkEntry "ready"] /\
  map ServiceConsole.closed
    (ServiceConsole.sockets
       (@ServiceConsole.step Sample.builtins Sample.httpPage w ServiceConsole.EffectCleanup))
    = [false; true].
Proof. vm_compute. repeat split. Qed.

(** C8 on the code.  A service console whose effect runs again while the
    cached-tail request of the first run is pending: the second run skips
    the request and starts the connection at once, so the ticket is asked
    for, the socket is constructed and a live line is appended while the
    seeding is still outstanding; when the tail arrives it replaces the
    buffer and the live line is gone. *)
Lemma rerun_connects_before_seeding_completes :
  let started := @ServiceConsole.run Sample.builtins Sample.httpPage
                   (ServiceConsole.initial Sample.serviceProps)
                   [ServiceConsole.EffectRun;
                    ServiceConsole.EffectCleanup;
                    ServiceConsole.EffectRun] in
  let streaming := @ServiceConsole.run Sample.builtins Sample.httpPage started
                     [ServiceConsole.TicketSettled 1 (Some "t1");
                      ServiceConsole.CookiesSettled 2 (Some Sample.httpCookies);
                      ServiceConsole.SocketMessage 0 "live"] in
  let seeded := @ServiceConsole.step Sample.builtins Sample.httpPage streaming
                  (ServiceConsole.LogLinesSettled 0 (Some ["a"; "b"])) in
  ServiceConsole.calls started
    = [ServiceConsole.LogLines "Lobby-1";
       ServiceConsole.CreateTicket (Some ServiceConsole.service)] /\
  ServiceConsole.awaiting started 0 = Some ServiceConsole.InLogLines /\
  ServiceConsole.awaiting streaming 0 = Some ServiceConsole.InLogLines /\
  map ServiceConsole.onmessage (ServiceConsole.sockets streaming) = [true] /\
  ServiceConsole.history streaming = [ServiceConsole.mkEntry "live"] /\
  ServiceConsole.history seeded
    = [ServiceConsole.mkEntry "a"; ServiceConsole.mkEntry "b"].
Proof. vm_compute. repeat split. Qed.

(** The scenario of the specification for a single effect run: the
    cached-tail request fails, the buffer stays empty, and the connection
    is still made and delivers. *)
Example failed_seed_still_streams :
  let w := @ServiceConsole.run Sample.builtins Sample.httpPage
             (ServiceConsole.initial Sample.serviceProps)
             [ServiceConsole.EffectRun;
              ServiceConsole.LogLinesSettled 0 None;
              ServiceConsole.TicketSettled 1 (Some "t1");
              ServiceConsole.CookiesSettled 2 (Some Sample.httpCookies)] in
  ServiceConsole.history w = [] /\
  ServiceConsole.sockets w
    = [ServiceConsole.mkSocket
         "ws://cloud.example:2812/api/v3/service/Lobby-1/liveLog?ticket=t1"
         false true true] /\
  ServiceConsole.history
    (@ServiceConsole.step Sample.builtins Sample.httpPage w
       (ServiceConsole.SocketMessage 0 "first"))
    = [ServiceConsole.mkEntry "first"].
Proof. vm_compute. repeat split. Qed.

(** ** The theorems at work on concrete traces *)

Lemma streaming_requires_guard_pass_witness :
  let evs := [ServiceConsole.EffectRun;
              ServiceConsole.TicketSettled 0 (Some "t1");
              ServiceConsole.CookiesSettled 1 (Some Sample.httpCookies)] in
  let w := @ServiceConsole.run Sample.builtins Sample.httpPage
             (ServiceConsole.initial Sample.nodeProps) evs in
  let blocked := @ServiceConsole.run Sample.builtins Sample.httpsPage
                   (ServiceConsole.initial Sample.nodeProps)
                   [ServiceConsole.EffectRun;
                    ServiceConsole.TicketSettled 0 (Some "t1")] in
  (ServiceConsole.history
     (@ServiceConsole.step Sample.builtins Sample.httpPage w
        (ServiceConsole.SocketMessage 0 "line"))
     <> ServiceConsole.history w /\
   exists before ev after,
     evs = before ++ ev :: after /\
     @Spec.GuardPassed Sample.builtins Sample.httpPage
       (@ServiceConsole.run Sample.builtins Sample.httpPage
          (ServiceConsole.initial Sample.nodeProps) before) ev /\
     length (ServiceConsole.sockets
               (@ServiceConsole.run Sample.builtins Sample.httpPage
                  (ServiceConsole.initial Sample.nodeProps) before)) = 0) /\
  (ServiceConsole.awaiting blocked 1 = Some (ServiceConsole.InGetCookies "t1") /\
   Spec.classify "http://cloud.example:2812/api/v3"
     <> Spec.classify (@ServiceConsole.origin Sample.httpsPage) /\
   ServiceConsole.sockets
     (@ServiceConsole.step Sample.builtins Sample.httpsPage blocked
        (ServiceConsole.CookiesSettled 1 (Some Sample.httpCookies)))
     = ServiceConsole.sockets blocked).
Proof.
  intros evs w blocked. split.
  - assert (Hgrows : ServiceConsole.history
                       (@ServiceConsole.step Sample.builtins Sample.httpPage w
                          (ServiceConsole.SocketMessage 0 "line"))
                     <> ServiceConsole.history w)
      by (vm_compute; discriminate).
    split; [exact Hgrows |].
    exact (proj1 (@streaming_requires_guard_pass Sample.builtins Sample.httpPage
                    Sample.nodeProps evs) 0 "line" Hgrows).
  - assert (Hwait : ServiceConsole.awaiting blocked 1
                    = Some (ServiceConsole.InGetCookies "t1"))
      by (vm_compute; reflexivity).
    assert (Hdec : @Js.decodeURIComponent Sample.builtins
                     (Js.toStringOrUndefined (Sample.httpCookies !! "add"))
                   = Some "http://cloud.example:2812/api/v3")
      by (vm_compute; reflexivity).
    assert (Hdiff : Spec.classify "http://cloud.example:2812/api/v3"
                    <> Spec.classify (@ServiceConsole.origin Sample.httpsPage))
      by (vm_compute; discriminate).
    split; [exact Hwait | split; [exact Hdiff |]].
    exact (proj1 (proj2
             (proj2 (@streaming_requires_guard_pass Sample.builtins Sample.httpsPage
                       Sample.nodeProps
                       [ServiceConsole.EffectRun;
                        ServiceConsole.TicketSettled 0 (Some "t1")])
                1 "t1" Sample.httpCookies _ Hwait Hdec Hdiff))).
Defined.

Lemma input_kept_unless_send_succeeds_witness :
  let blank := @ServiceConsole.run Sample.builtins Sample.httpPage
                 (ServiceConsole.initial Sample.serviceProps)
                 [ServiceConsole.InputChange "   "] in
  let sent := @ServiceConsole.run Sample.builtins Sample.httpPage
                (ServiceConsole.initial Sample.serviceProps)
                [ServiceConsole.InputChange "stop"; ServiceConsole.Submit] in
  ((@Js.trim Sample.builtins (ServiceConsole.input blank) = "" \/
    ServiceConsole.serviceName (ServiceConsole.props blank) = None \/
    ServiceConsole.serviceName (ServiceConsole.props blank) = Some "") /\
   @ServiceConsole.step Sample.builtins Sample.httpPage blank ServiceConsole.Submit
     = blank) /\
  (ServiceConsole.awaiting sent 0 = Some ServiceConsole.InExecute /\
   ServiceConsole.input
     (@ServiceConsole.step Sample.builtins Sample.httpPage sent
        (ServiceConsole.ExecuteSettled 0 false))
     = "stop").
Proof.
  intros blank sent. split.
  - assert (Hblank : @Js.trim Sample.builtins (ServiceConsole.input blank) = "" \/
                     ServiceConsole.serviceName (ServiceConsole.props blank) = None \/
                     ServiceConsole.serviceName (ServiceConsole.props blank) = Some "")
      by (left; vm_compute; reflexivity).
    split; [exact Hblank |].
    exact (proj1 (@input_kept_unless_send_succeeds Sample.builtins Sample.httpPage blank)
             Hblank).
  - assert (Hwait : ServiceConsole.awaiting sent 0 = Some ServiceConsole.InExecute)
      by (vm_compute; reflexivity).
    split; [exact Hwait |].
    exact (proj1 (proj1 (proj2 (@input_kept_unless_send_succeeds
                                  Sample.builtins Sample.httpPage sent))
                    0 Hwait)).
Defined.

Lemma failures_notify_and_set_blocked_flag_witness :
  let asked := @ServiceConsole.run Sample.builtins Sample.strictPage
                 (ServiceConsole.initial Sample.nodeProps)
                 [ServiceConsole.EffectRun] in
  let ticketed := @ServiceConsole.run Sample.builtins Sample.strictPage asked
                    [ServiceConsole.TicketSettled 0 (Some "t1")] in
  (ServiceConsole.awaiting asked 0 = Some ServiceConsole.InCreateTicket /\
   ServiceConsole.calls
     (@ServiceConsole.step Sample.builtins Sample.strictPage asked
        (ServiceConsole.TicketSettled 0 None))
     = ServiceConsole.calls asked
         ++ [ServiceConsole.ConsoleError "Socket initialization error:";
             ServiceConsole.ToastError "connectionError"]) /\
  (ServiceConsole.awaiting ticketed 1 = Some (ServiceConsole.InGetCookies "t1") /\
   @ServiceConsole.alert
     (@ServiceConsole.render Sample.builtins
        (@ServiceConsole.step Sample.builtins Sample.strictPage ticketed
           (ServiceConsole.CookiesSettled 1 (Some Sample.httpCookies))))
     = Some ("headsUp", "protocolMismatch")).
Proof.
  intros asked ticketed. split.
  - assert (Hwait : ServiceConsole.awaiting asked 0 = Some ServiceConsole.InCreateTicket)
      by (vm_compute; reflexivity).
    split; [exact Hwait |].
    exact (proj1 (proj1 (@failures_notify_and_set_blocked_flag
                           Sample.builtins Sample.strictPage asked)
                    0 Hwait)).
  - assert (Hwait : ServiceConsole.awaiting ticketed 1
                    = Some (ServiceConsole.InGetCookies "t1"))
      by (vm_compute; reflexivity).
    assert (Hdec : @Js.decodeURIComponent Sample.builtins
                     (Js.toStringOrUndefined (Sample.httpCookies !! "add"))
                   = Some "http://cloud.example:2812/api/v3")
      by (vm_compute; reflexivity).
    assert (Hsame : Spec.classify "http://cloud.example:2812/api/v3"
                    = Spec.classify (@ServiceConsole.origin Sample.strictPage))
      by (vm_compute; reflexivity).
    assert (Hthrows : @ServiceConsole.webSocketThrows Sample.strictPage
                        (ServiceConsole.socketUrl
                           (ServiceConsole.wsProtocol "http://cloud.example:2812/api/v3")
                           (Js.stripHttpScheme "http://cloud.example:2812/api/v3")
                           (ServiceConsole.webSocketPath (ServiceConsole.props ticketed))
                           "t1")
                      = true)
      by reflexivity.
    split; [exact Hwait |].
    exact (proj1 (proj2 (proj2
             (proj1 (proj1 (proj2 (@failures_notify_and_set_blocked_flag
                                     Sample.builtins Sample.strictPage ticketed))
                       1 "t1" Sample.httpCookies _ Hwait Hdec)
                Hsame Hthrows)))).
Defined.


(** * Further properties of the code *)

(** ** Server API helpers: responses, session check, requests *)

Section ServerApiMoreFacts.

Context `{Js.Builtins} `{ServerApi.Runtime}.
Import ServerApi.

Lemma truthy_false_iff (s : string) : Js.truthy s = false <-> s = "".
Proof.
  unfold Js.truthy. rewrite negb_false_iff. apply String.eqb_eq.
Qed.

Lemma truthy_opt_false_iff (o : option string) :
  Js.truthy_opt o = false <-> o = None \/ o = Some "".
Proof.
  destruct o as [s |]; simpl.
  - rewrite truthy_false_iff. split.
    + intros ->. now right.
    + intros [Hn | Hs]; [discriminate Hn | now injection Hs].
  - split; [now left | reflexivity].
Qed.

(** The session check, read as a proposition. *)
Lemma session_check_iff (cookie : gmap string string) :
  negb (Js.truthy_opt (cookie !! "at")) || negb (Js.truthy_opt (cookie !! "add")) = true
  <-> (cookie !! "at" = None \/ cookie !! "at" = Some "") \/
      (cookie !! "add" = None \/ cookie !! "add" = Some "").
Proof.
  rewrite orb_true_iff, !negb_true_iff, !truthy_opt_false_iff. reflexivity.
Qed.

Lemma handleResponse_not_unauthorized (response : Response) :
  handleResponse response <> inl Unauthorized.
Proof.
  unfold handleResponse.
  destruct (ok response); simpl; [| discriminate].
  destruct (Js.truthy (text response)); simpl; [| discriminate].
  destruct (JSON_parse (text response)); discriminate.
Qed.

Lemma send_outcome (address : string) (mk : string -> Request) :
  (Js.decodeURIComponent address = None /\ send address mk = ([], inl UriMalformed)) \/
  (exists base,
      Js.decodeURIComponent address = Some base /\
      fst (send address mk) = [mk base] /\
      snd (send address mk)
        = match fetch (mk base) with
          | Some response => handleResponse response
          | None => inl FetchRejected
          end).
Proof.
  unfold send. destruct (Js.decodeURIComponent address) as [base |].
  - right. exists base. destruct (fetch (mk base)); now repeat split.
  - now left.
Qed.

Lemma send_not_unauthorized (address : string) (mk : string -> Request) :
  snd (send address mk) <> inl Unauthorized.
Proof.
  destruct (send_outcome address mk) as [[_ ->] | (base & _ & _ & ->)];
    [discriminate |].
  destruct (fetch (mk base)); [apply handleResponse_not_unauthorized | discriminate].
Qed.

(** X1.  A response is turned into a value exactly when its status is a
    success, its body is not empty and the body parses; a failure status
    is reported as such whatever the body holds, and an empty body is
    reported before any parsing. *)
Theorem handleResponse_value_iff (response : Response) :
  (forall v,
      handleResponse response = inr v <->
      ok response = true /\ text response <> "" /\
      JSON_parse (text response) = Some v) /\
  (ok response = false -> handleResponse response = inl (HttpError (status response))) /\
  (ok response = true -> text response = "" -> handleResponse response = inl EmptyResponse).
Proof.
  unfold handleResponse. split; [| split].
  - intros v. destruct (ok response); simpl.
    + destruct (Js.truthy (text response)) eqn:Htext; simpl.
      * assert (Hne : text response <> "").
        { intros Hempty. apply truthy_false_iff in Hempty. congruence. }
        destruct (JSON_parse (text response)) as [v' |]; split.
        -- intros [= ->]. auto.
        -- now intros (_ & _ & [= ->]).
        -- discriminate.
        -- now intros (_ & _ & ?).
      * apply truthy_false_iff in Htext. split; [discriminate |].
        now intros (_ & Hne & _).
    + split; [discriminate | now intros (? & _)].
  - now intros ->.
  - intros -> ->. reflexivity.
Qed.

(** X2.  [Unauthorized] is only ever raised by the helper itself: a call
    ends with it exactly when the token or the address is missing from the
    cookies or is the empty string, and then nothing was sent.  A rejection
    by the server never shows as [Unauthorized]. *)
Theorem unauthorized_iff_session_incomplete (cookie : gmap string string) :
  let incomplete :=
    (cookie !! "at" = None \/ cookie !! "at" = Some "") \/
    (cookie !! "add" = None \/ cookie !! "add" = Some "") in
  (forall url params,
      snd (serverApiGet cookie url params) = inl Unauthorized <-> incomplete) /\
  (forall url body,
      snd (serverApiPost cookie url body) = inl Unauthorized <-> incomplete) /\
  (incomplete ->
   (forall url params, fst (serverApiGet cookie url params) = []) /\
   (forall url body, fst (serverApiPost cookie url body) = [])).
Proof.
  intros incomplete. subst incomplete.
  pose proof (session_check_iff cookie) as Hcheck.
  split; [| split].
  - intros url params. unfold serverApiGet. cbv zeta.
    destruct (negb _ || negb _) eqn:Hc.
    + split; [intros _; now apply Hcheck | reflexivity].
    + split.
      * intros Hsend. now apply send_not_unauthorized in Hsend.
      * intros Hinc. apply Hcheck in Hinc. discriminate Hinc.
  - intros url body. unfold serverApiPost. cbv zeta.
    destruct (negb _ || negb _) eqn:Hc.
    + split; [intros _; now apply Hcheck | reflexivity].
    + split.
      * intros Hsend. now apply send_not_unauthorized in Hsend.
      * intros Hinc. apply Hcheck in Hinc. discriminate Hinc.
  - intros Hinc. apply Hcheck in Hinc. split.
    + intros url params. unfold serverApiGet. cbv zeta. now rewrite Hinc.
    + intros url body. unfold serverApiPost. cbv zeta. now rewrite Hinc.
Qed.

(** X3.  With a token and an address in the cookies and an address that
    decodes, a call sends one request: to the decoded address followed by
    the path (and the query string of a GET), with the JSON content type
    and the token as bearer credential; a GET has no body, a POST has the
    serialized body. *)
Theorem authorized_request_shape (cookie : gmap string string)
    (token address base : string) :
  cookie !! "at" = Some token -> token <> "" ->
  cookie !! "add" = Some address -> address <> "" ->
  Js.decodeURIComponent address = Some base ->
  (forall url,
      fst (serverApiGet cookie url None)
        = [mkRequest (base +:+ url +:+ "") "GET"
             [("Content-Type", "application/json");
              ("Authorization", "Bearer " +:+ token)] None]) /\
  (forall url params,
      fst (serverApiGet cookie url (Some params))
        = [mkRequest (base +:+ url +:+ "?" +:+ urlSearchParams params) "GET"
             [("Content-Type", "application/json");
              ("Authorization", "Bearer " +:+ token)] None]) /\
  (forall url body,
      fst (serverApiPost cookie url body)
        = [mkRequest (base +:+ url) "POST"
             [("Content-Type", "application/json");
              ("Authorization", "Bearer " +:+ token)]
             (Some (JSON_stringify body))]).
Proof.
  intros Hat Htoken Hadd Haddress Hdec.
  assert (Hcheck : negb (Js.truthy_opt (cookie !! "at"))
                   || negb (Js.truthy_opt (cookie !! "add")) = false).
  { rewrite Hat, Hadd. simpl. unfold Js.truthy.
    apply String.eqb_neq in Htoken, Haddress. now rewrite Htoken, Haddress. }
  assert (Hsend : forall mk, fst (send address mk) = [mk base]).
  { intros mk. destruct (send_outcome address mk) as [[Hn _] | (b & Hb & -> & _)];
      congruence. }
  repeat split; intros; unfold serverApiGet, serverApiPost; cbv zeta;
    rewrite Hcheck, Hat, Hadd; simpl default; now rewrite Hsend.
Qed.

(** X4.  A call never sends more than one request: there is no retry.  It
    sends none exactly when it ends with [Unauthorized] or with the
    decoding error of the address. *)
Theorem at_most_one_request (cookie : gmap string string) :
  (forall url params,
      let out := serverApiGet cookie url params in
      length (fst out) <= 1 /\
      (fst out = [] <-> snd out = inl Unauthorized \/ snd out = inl UriMalformed)) /\
  (forall url body,
      let out := serverApiPost cookie url body in
      length (fst out) <= 1 /\
      (fst out = [] <-> snd out = inl Unauthorized \/ snd out = inl UriMalformed)).
Proof.
  assert (Hsend : forall address mk,
             length (fst (send address mk)) <= 1 /\
             (fst (send address mk) = [] <->
              snd (send address mk) = inl Unauthorized \/
              snd (send address mk) = inl UriMalformed)).
  { intros address mk. unfold send.
    destruct (Js.decodeURIComponent address) as [base |]; simpl.
    - destruct (fetch (mk base)) as [response |]; simpl.
      + split; [lia |]. split; [discriminate |].
        intros [Hu | Hm].
        * now apply handleResponse_not_unauthorized in Hu.
        * exfalso. revert Hm. unfold handleResponse.
          destruct (ok response); simpl; [| discriminate].
          destruct (Js.truthy (text response)); simpl; [| discriminate].
          destruct (JSON_parse (text response)); discriminate.
      + split; [lia |]. split; [discriminate | intros [? | ?]; discriminate].
    - split; [lia |]. split; [now right | reflexivity]. }
  split.
  - intros url params out. subst out. unfold serverApiGet. cbv zeta.
    destruct (negb _ || negb _); [| apply Hsend].
    simpl. split; [lia |]. split; [now left | reflexivity].
  - intros url body out. subst out. unfold serverApiPost. cbv zeta.
    destruct (negb _ || negb _); [| apply Hsend].
    simpl. split; [lia |]. split; [now left | reflexivity].
Qed.

End ServerApiMoreFacts.

(** ** The user page: permission gate and fetch *)

Section UserPageFacts.

Context `{Js.Builtins} `{ServerApi.Runtime} `{UserPage.Templating}.
Import ServerApi UserPage.

Lemma includes_In (permissions : list string) (permission : string) :
  includes permissions permission = true <-> In permission permissions.
Proof.
  unfold includes. rewrite existsb_exists. split.
  - intros (x & Hx & Heq). apply String.eqb_eq in Heq. now subst.
  - intros Hin. exists permission. split; [exact Hin | apply String.eqb_refl].
Qed.

Lemma hasPermissions_iff (permissions : list string) :
  hasPermissions permissions = true <->
  In "cloudnet_rest:user_read" permissions \/
  In "cloudnet_rest:user_get" permissions \/
  In "global:admin" permissions.
Proof.
  unfold hasPermissions, requiredPermissions. simpl.
  rewrite !orb_true_iff, !includes_In. intuition discriminate.
Qed.

(** X5.  The page answers [NoAccess] exactly when the operator holds none
    of the three permissions, and a page that answers [NoAccess] has made
    no call to the user API: the user is never fetched for a reader
    without access. *)
Theorem user_page_gate (cookie : gmap string string) (userId : string)
    (permissions : list string) :
  (snd (UserPage cookie userId permissions) = NoAccess <->
   ~ In "cloudnet_rest:user_read" permissions /\
   ~ In "cloudnet_rest:user_get" permissions /\
   ~ In "global:admin" permissions) /\
  (snd (UserPage cookie userId permissions) = NoAccess ->
   fst (UserPage cookie userId permissions) = []).
Proof.
  unfold UserPage.
  destruct (hasPermissions permissions) eqn:Hgate; simpl.
  - apply hasPermissions_iff in Hgate.
    assert (Hother : snd (let (requests, result) := user_get cookie userId in
                          match result with
                          | inl _ => (requests, DoesNotExist "User")
                          | inr user =>
                              (requests,
                               match username user with
                               | Some name => PageLayout (title name) user
                               | None => TypeError
                               end)
                          end) <> NoAccess).
    { destruct (user_get cookie userId) as [requests [e | user]]; simpl;
        [discriminate |].
      destruct (username user); discriminate. }
    split; [| intros Hno; now contradiction Hother].
    split; [intros Hno; now contradiction Hother | tauto].
  - split; [| reflexivity].
    split; [| reflexivity]. intros _.
    assert (Hnot : ~ (In "cloudnet_rest:user_read" permissions \/
                      In "cloudnet_rest:user_get" permissions \/
                      In "global:admin" permissions)).
    { rewrite <- hasPermissions_iff. congruence. }
    tauto.
Qed.

(** X6.  For an operator with access the page sends what
    [serverUserApi.get] sends and nothing more; every failure of that call,
    the missing session included, is shown as a user that does not exist;
    and a user object is shown under the title made of its [username]. *)
Theorem user_page_fetch (cookie : gmap string string) (userId : string)
    (permissions : list string) :
  hasPermissions permissions = true ->
  fst (UserPage cookie userId permissions) = fst (user_get cookie userId) /\
  (forall e,
      snd (user_get cookie userId) = inl e ->
      snd (UserPage cookie userId permissions) = DoesNotExist "User") /\
  (forall fields,
      snd (user_get cookie userId) = inr (JObject fields) ->
      snd (UserPage cookie userId permissions)
        = PageLayout (title (member "username" fields)) (JObject fields)).
Proof.
  intros Hgate. unfold UserPage. rewrite Hgate. simpl.
  destruct (user_get cookie userId) as [requests [e | user]]; simpl.
  - split; [reflexivity |]. split; [reflexivity | discriminate].
  - split; [reflexivity |]. split; [discriminate |]. now intros fields [= ->].
Qed.

End UserPageFacts.

(** ** Text primitives: containment and the scheme of an address *)

Lemma append_cons (c : ascii) (a b : string) :
  String c a +:+ b = String c (a +:+ b).
Proof. reflexivity. Qed.

Lemma append_empty (s : string) : "" +:+ s = s.
Proof. reflexivity. Qed.

Lemma prefix_iff (p s : string) :
  String.prefix p s = true <-> exists post, s = p +:+ post.
Proof.
  revert s. induction p as [| c p IH]; intros [| d s]; simpl.
  - split; [intros _; now exists "" | reflexivity].
  - split; [intros _; now exists (String d s) | reflexivity].
  - split; [discriminate | intros [post Hpost]; discriminate Hpost].
  - destruct (Ascii.ascii_dec c d) as [-> | Hne].
    + rewrite IH. split; intros [post Hpost]; exists post;
        rewrite append_cons in *; congruence.
    + split; [discriminate |]. intros [post Hpost].
      rewrite append_cons in Hpost. injection Hpost as <- _.
      now contradiction Hne.
Qed.

(** X7.  The containment test behind the filter and the colouring holds
    exactly when the sought text occurs in the line as one contiguous
    piece; the empty text occurs in every line. *)
Theorem includes_iff_substring (s sub : string) :
  (Js.includes s sub = true <-> exists pre post, s = pre +:+ sub +:+ post) /\
  Js.includes s "" = true.
Proof.
  split.
  - induction s as [| c s IH]; simpl.
    + destruct sub as [| d sub]; simpl.
      * split; [intros _; now exists "", "" | reflexivity].
      * split; [discriminate |]. intros (pre & post & Hs).
        destruct pre; discriminate Hs.
    + change (String.prefix sub (String c s) || Js.includes s sub = true <->
              exists pre post, String c s = pre +:+ sub +:+ post).
      rewrite orb_true_iff, prefix_iff, IH. split.
      * intros [[post Hpost] | (pre & post & ->)].
        -- now exists "", post.
        -- now exists (String c pre), post.
      * intros (pre & post & Hs). destruct pre as [| d pre].
        -- left. now exists post.
        -- right. rewrite append_cons in Hs. injection Hs as _ ->.
           now exists pre, post.
  - destruct s; reflexivity.
Qed.

Lemma substring_all (s : string) : String.substring 0 (String.length s) s = s.
Proof. induction s as [| c s IH]; simpl; [reflexivity | now rewrite IH]. Qed.

Lemma prefix_empty (s : string) : String.prefix "" s = true.
Proof. now destruct s. Qed.

(** The scheme prefixes are removed whole and only at the start. *)
Lemma stripHttpScheme_http (host : string) :
  Js.stripHttpScheme ("http://" +:+ host) = host.
Proof.
  unfold Js.stripHttpScheme, Js.dropChars.
  rewrite !append_cons, append_empty. simpl.
  rewrite prefix_empty, Nat.sub_0_r. apply substring_all.
Qed.

Lemma stripHttpScheme_https (host : string) :
  Js.stripHttpScheme ("https://" +:+ host) = host.
Proof.
  unfold Js.stripHttpScheme, Js.dropChars.
  rewrite !append_cons, append_empty. simpl.
  rewrite prefix_empty, Nat.sub_0_r. apply substring_all.
Qed.

Lemma classify_http (host : string) :
  Spec.classify ("http://" +:+ host) = Spec.Insecure.
Proof.
  unfold Spec.classify, Js.startsWith. now rewrite !append_cons, append_empty.
Qed.

Lemma classify_https (host : string) :
  Spec.classify ("https://" +:+ host) = Spec.Secure.
Proof.
  unfold Spec.classify, Js.startsWith. now rewrite !append_cons, append_empty.
Qed.

Section UrlFacts.

Context `{Js.Builtins} `{ServiceConsole.Browser}.
Import ServiceConsole Spec.

Lemma constructed_heap (socketUrl : string) (w : World) :
  sockets (onCurrentSocket installOnerror
             (onCurrentSocket installOnmessage (construct socketUrl w)))
    = sockets w ++ [mkSocket socketUrl false true true] /\
  socketRef (onCurrentSocket installOnerror
               (onCurrentSocket installOnmessage (construct socketUrl w)))
    = Some (length (sockets w)).
Proof.
  unfold onCurrentSocket, construct. simpl. split; [| reflexivity].
  rewrite (alter_app_r_alt installOnmessage) by lia.
  rewrite (alter_app_r_alt installOnerror) by lia.
  rewrite Nat.sub_diag. reflexivity.
Qed.

(** X8.  The socket address keeps the endpoint and swaps the scheme: for a
    cookie address [http://host] on an insecure page the socket is
    constructed for [ws://host], for [https://host] on a secure page for
    [wss://host], each followed by the socket path and the ticket as query
    string; the new socket is open and has both handlers. *)
Theorem socket_url_of_address (w : World) (id : nat) (ticket host : string)
    (cookies : gmap string string) :
  awaiting w id = Some (InGetCookies ticket) ->
  let w' := step w (CookiesSettled id (Some cookies)) in
  (Js.decodeURIComponent (Js.toStringOrUndefined (cookies !! "add"))
     = Some ("http://" +:+ host) ->
   classify origin = Insecure ->
   let target := "ws://" +:+ host +:+ webSocketPath (props w) +:+ "?ticket=" +:+ ticket in
   webSocketThrows target = false ->
   sockets w' = sockets w ++ [mkSocket target false true true] /\
   socketRef w' = Some (length (sockets w))) /\
  (Js.decodeURIComponent (Js.toStringOrUndefined (cookies !! "add"))
     = Some ("https://" +:+ host) ->
   classify origin = Secure ->
   let target := "wss://" +:+ host +:+ webSocketPath (props w) +:+ "?ticket=" +:+ ticket in
   webSocketThrows target = false ->
   sockets w' = sockets w ++ [mkSocket target false true true] /\
   socketRef w' = Some (length (sockets w))).
Proof.
  intros Hwait w'. subst w'. unfold step. rewrite Hwait.
  split; intros Hdec Horigin Haccepts; unfold afterGetCookies; rewrite Hdec; cbv zeta.
  - assert (Hguard : String.eqb (wsProtocol ("http://" +:+ host)) (wsProtocol origin) = true).
    { apply wsProtocol_eqb. rewrite Horigin. apply classify_http. }
    rewrite Hguard. simpl negb. cbv iota.
    rewrite stripHttpScheme_http.
    assert (Hurl : socketUrl (wsProtocol ("http://" +:+ host)) host
                     (webSocketPath (props (resume id w))) ticket
                   = "ws://" +:+ host +:+ webSocketPath (props w)
                       +:+ "?ticket=" +:+ ticket) by reflexivity.
    rewrite Hurl, Haccepts.
    exact (constructed_heap _ (perform (NewWebSocket _) (resume id w))).
  - assert (Hguard : String.eqb (wsProtocol ("https://" +:+ host)) (wsProtocol origin) = true).
    { apply wsProtocol_eqb. rewrite Horigin. apply classify_https. }
    rewrite Hguard. simpl negb. cbv iota.
    rewrite stripHttpScheme_https.
    assert (Hurl : socketUrl (wsProtocol ("https://" +:+ host)) host
                     (webSocketPath (props (resume id w))) ticket
                   = "wss://" +:+ host +:+ webSocketPath (props w)
                       +:+ "?ticket=" +:+ ticket) by reflexivity.
    rewrite Hurl, Haccepts.
    exact (constructed_heap _ (perform (NewWebSocket _) (resume id w))).
Qed.

End UrlFacts.

(** ** The console: how the buffer grows, is seeded and is cleared *)

Section BufferMoreFacts.

Context `{Js.Builtins} `{ServiceConsole.Browser}.
Import ServiceConsole Spec.

Lemma message_step (w : World) (s : nat) (data : string) :
  Listening w s ->
  step w (SocketMessage s data) = handleMessage data w.
Proof. intros (ws & Hs & Hon). simpl. now rewrite Hs, Hon. Qed.

(** A run of deliveries appends the data in the order delivered and
    leaves the rest of the world alone. *)
Lemma run_deliveries (msgs : list (nat * string)) (w : World) :
  (forall m, In m msgs -> Listening w (fst m)) ->
  run w (deliveries msgs)
    = setHistory (fun prev => prev ++ map (fun m => mkEntry (snd m)) msgs) w.
Proof.
  revert w. induction msgs as [| m msgs IH]; intros w Hall.
  - simpl. unfold setHistory. rewrite app_nil_r. now destruct w.
  - change (run w (deliveries (m :: msgs)))
      with (run (step w (SocketMessage (fst m) (snd m))) (deliveries msgs)).
    rewrite message_step by (apply Hall; now left).
    rewrite IH.
    + unfold handleMessage, setHistory. simpl. now rewrite <- app_assoc.
    + intros m' Hm'. apply (Hall m'). now right.
Qed.

(** X9.  A line that arrives on a listening socket shows up at the end of
    the filtered view when it passes the current filter and not at all
    otherwise; the lines already in the view stay where they are. *)
Theorem view_grows_at_the_end (w : World) (s : nat) (data : string) :
  Listening w s ->
  filteredHistory (step w (SocketMessage s data))
    = filteredHistory w ++
      (if (if String.eqb (filter w) "ALL" then true
           else Js.includes (Js.toLowerCase data) (Js.toLowerCase (filter w)))
       then [mkEntry data] else []).
Proof.
  intros Hlisten. rewrite (message_step _ _ _ Hlisten).
  unfold filteredHistory, handleMessage. simpl.
  rewrite List.filter_app. simpl.
  now destruct (if String.eqb (filter w) "ALL" then true else _).
Qed.

(** X10.  Messages delivered to listening sockets are appended to the
    buffer one entry each, in the order of delivery, after what the buffer
    held; nothing is dropped, merged or reordered, and sockets, refs and
    pending requests are untouched. *)
Theorem messages_appended_in_order (w : World) (msgs : list (nat * string)) :
  (forall m, In m msgs -> Listening w (fst m)) ->
  let w' := run w (deliveries msgs) in
  map output (history w') = map output (history w) ++ map snd msgs /\
  length (history w') = length (history w) + length msgs /\
  sockets w' = sockets w /\ socketRef w' = socketRef w /\
  pending w' = pending w /\ calls w' = calls w.
Proof.
  intros Hall w'. subst w'. rewrite (run_deliveries _ _ Hall). simpl.
  rewrite map_app, map_map, length_app, length_map. simpl.
  now repeat split.
Qed.

Lemma initializeSocket_history (w : World) :
  history (initializeSocket w) = history w.
Proof. unfold initializeSocket. now destruct (socketRef w). Qed.

(** X11.  The buffer changes in three ways only: a message delivered to a
    socket appends one entry, the arrival of the cached tail replaces the
    content by the tail, and the clear button empties it.  No other task
    of the component touches it. *)
Theorem history_changes_only_by (w : World) (ev : Event) :
  history (step w ev) <> history w ->
  (exists s data,
      ev = SocketMessage s data /\ history (step w ev) = history w ++ [mkEntry data]) \/
  (exists id lines,
      ev = LogLinesSettled id (Some lines) /\ awaiting w id = Some InLogLines /\
      history (step w ev) = map mkEntry lines) \/
  (ev = ClearClick /\ history (step w ev) = []).
Proof.
  destruct ev as [ | | id lines | id ticket | id cookies | id ok
                 | s data | s | v | v | | | ]; intros Hchanged;
    try (exfalso; apply Hchanged; clear Hchanged; simpl;
         unfold effect, cleanup, afterCreateTicket, afterGetCookies,
           afterExecute, handleError, handleSubmit, downloadLogs,
           initializeSocket, catchInitialization, catchConstruction,
           onCurrentSocket, construct, toastError, consoleError, suspend, resume;
         repeat (match goal with
                 | |- context [match ?x with _ => _ end] =>
                     lazymatch x with
                     | context [match _ with _ => _ end] => fail
                     | _ => destruct x eqn:?
                     end
                 end; simpl);
         reflexivity).
  - right; left. simpl in *.
    destruct (awaiting w id) as [[ | | ? | ] |] eqn:Hwait;
      try (exfalso; apply Hchanged; reflexivity).
    unfold afterLogLines in *. rewrite initializeSocket_history in *.
    destruct lines as [ls |]; [| exfalso; apply Hchanged; reflexivity].
    exists id, ls. now repeat split.
  - left. simpl in *. destruct (sockets w !! s) as [ws |];
      [| exfalso; apply Hchanged; reflexivity].
    destruct (onmessage ws); [| exfalso; apply Hchanged; reflexivity].
    now exists s, data.
  - right; right. now split.
Qed.

(** X12.  The clear button empties the buffer, so the view is empty under
    every filter and an export is the empty text, and it leaves the
    connection alone: sockets, ref and pending requests are unchanged, and
    the lines delivered afterwards are exactly what the buffer then holds. *)
Theorem clear_keeps_stream (w : World) (msgs : list (nat * string)) :
  (forall m, In m msgs -> Listening w (fst m)) ->
  let cleared := step w ClearClick in
  filteredHistory cleared = [] /\
  (forall level, filteredHistory (step cleared (FilterChange level)) = []) /\
  exportText cleared = "" /\
  sockets cleared = sockets w /\ socketRef cleared = socketRef w /\
  pending cleared = pending w /\
  map output (history (run cleared (deliveries msgs))) = map snd msgs.
Proof.
  intros Hall cleared. subst cleared.
  repeat split.
  rewrite run_deliveries by exact Hall. simpl.
  now rewrite map_map.
Qed.

(** X13.  When the cached tail arrives, the buffer holds the lines of the
    tail, in order, and nothing else: whatever it held before is replaced,
    and an export made then is the tail joined by line feeds.  When the
    request fails the buffer is left as it is and the failure is reported. *)
Theorem seeding_replaces_buffer (w : World) (id : nat) :
  awaiting w id = Some InLogLines ->
  (forall lines,
      let w' := step w (LogLinesSettled id (Some lines)) in
      map output (history w') = lines /\
      exportText w' = Js.join (String (ascii_of_nat 10) "") lines) /\
  (let w' := step w (LogLinesSettled id None) in
   history w' = history w /\
   exists rest, calls w' = calls w ++ ToastError "fetchError" :: rest).
Proof.
  intros Hwait. split.
  - intros lines w'. subst w'. unfold step. rewrite Hwait.
    unfold exportText, afterLogLines. rewrite initializeSocket_history. simpl.
    rewrite map_map. simpl. rewrite map_id. now split.
  - unfold step. rewrite Hwait. unfold afterLogLines.
    rewrite initializeSocket_history. split; [reflexivity |].
    unfold initializeSocket. simpl.
    destruct (socketRef w).
    + now exists [].
    + eexists. simpl. rewrite <- app_assoc. reflexivity.
Qed.

End BufferMoreFacts.

(** ** The console: the heap of sockets over a trace *)

Lemma append_assoc (a b c : string) : (a +:+ b) +:+ c = a +:+ b +:+ c.
Proof.
  induction a as [| x a IH]; [reflexivity |].
  rewrite !append_cons. now rewrite IH.
Qed.

Section HeapFacts.

Context `{Js.Builtins} `{ServiceConsole.Browser}.
Import ServiceConsole Spec.

(** What the third segment does to heap and ref, in full. *)
Lemma afterGetCookies_heap ticket cookies w :
  (sockets (afterGetCookies ticket cookies w) = sockets w /\
   socketRef (afterGetCookies ticket cookies w) = socketRef w) \/
  (exists target,
      Js.startsWith target (wsProtocol origin +:+ "://") = true /\
      sockets (afterGetCookies ticket cookies w)
        = sockets w ++ [mkSocket target false true true] /\
      socketRef (afterGetCookies ticket cookies w) = Some (length (sockets w))).
Proof.
  unfold afterGetCookies.
  destruct cookies as [c |]; [| now left].
  destruct (Js.decodeURIComponent _) as [cookieAddress |]; [| now left].
  cbv zeta.
  destruct (String.eqb _ _) eqn:Hguard; simpl negb; cbv iota; [| now left].
  destruct (webSocketThrows _); [now left |].
  right. eexists. split; [| apply (constructed_heap _ (perform (NewWebSocket _) w))].
  apply String.eqb_eq in Hguard. rewrite <- Hguard.
  unfold Js.startsWith, socketUrl. apply prefix_iff.
  eexists. rewrite append_assoc. reflexivity.
Qed.

(** One task does one of three things to the heap: nothing, close the
    socket of the ref (the cleanup), or add a socket and point the ref to
    it (a connect that passed the guard). *)
Lemma step_heap w ev :
  (sockets (step w ev) = sockets w /\ socketRef (step w ev) = socketRef w) \/
  (exists s,
      ev = EffectCleanup /\ socketRef w = Some s /\
      sockets (step w ev) = alter closeSocket s (sockets w) /\
      socketRef (step w ev) = socketRef w) \/
  (exists target,
      Js.startsWith target (wsProtocol origin +:+ "://") = true /\
      sockets (step w ev) = sockets w ++ [mkSocket target false true true] /\
      socketRef (step w ev) = Some (length (sockets w))).
Proof.
  destruct ev as [ | | id lines | id ticket | id cookies | id ok
                 | s data | s | v | v | | | ];
    try (left; simpl;
         unfold effect, afterLogLines, afterCreateTicket,
           afterExecute, handleMessage, handleError, handleSubmit, downloadLogs,
           clearLogs, initializeSocket, catchInitialization,
           toastError, consoleError, suspend, resume;
         repeat (match goal with
                 | |- context [match ?x with _ => _ end] =>
                     lazymatch x with
                     | context [match _ with _ => _ end] => fail
                     | _ => destruct x eqn:?
                     end
                 end; simpl);
         split; first [reflexivity | congruence]).
  - unfold step. destruct (socketRef w) as [s |] eqn:Href.
    + right; left. exists s. rewrite (cleanup_with_socket _ _ Href). simpl.
      now repeat split.
    + left. unfold cleanup. rewrite Href. now split.
  - unfold step.
    destruct (awaiting w id) as [[ | | ticket | ] |]; try (left; now split).
    destruct (afterGetCookies_heap ticket cookies (resume id w))
      as [Hsame | Hnew]; [now left | now right; right].
Qed.

Lemma step_well_formed w ev : WellFormed w -> WellFormed (step w ev).
Proof.
  intros [Hsockets Href].
  destruct (step_heap w ev)
    as [[Hs Hr] | [(s & _ & Hcur & Hs & Hr) | (target & Hurl & Hs & Hr)]];
    unfold WellFormed; rewrite Hs, Hr.
  - now split.
  - split.
    + intros s' ws' Hlookup.
      destruct (decide (s = s')) as [<- | Hne].
      * rewrite list_lookup_alter_eq in Hlookup.
        destruct (sockets w !! s) as [ws |] eqn:Hold; [| discriminate Hlookup].
        injection Hlookup as <-. simpl. now apply (Hsockets s).
      * rewrite list_lookup_alter_ne in Hlookup by exact Hne.
        now apply (Hsockets s').
    + unfold latest. now rewrite length_alter.
  - split.
    + intros s' ws' Hlookup. apply lookup_app_Some in Hlookup.
      destruct Hlookup as [Hold | [_ Hnew]]; [now apply (Hsockets s') |].
      destruct (s' - length (sockets w)) as [| n]; [| discriminate Hnew].
      injection Hnew as <-. simpl. auto.
    + unfold latest. rewrite length_app, Nat.add_comm. reflexivity.
Qed.

Lemma reachable_well_formed p evs : WellFormed (run (initial p) evs).
Proof.
  induction evs as [| ev evs IH] using rev_ind.
  - split; [intros s ws Hs; discriminate Hs | reflexivity].
  - rewrite run_snoc. now apply step_well_formed.
Qed.

End HeapFacts.

Section HeapTheorems.

Context `{Js.Builtins} `{ServiceConsole.Browser}.
Import ServiceConsole Spec.

(** X14.  In every world the console can reach, each socket on the heap
    has both handlers installed and [socketRef] holds the socket that was
    constructed last (and nothing while the heap is empty).  So the cleanup
    leaves every socket but the last one exactly as it is. *)
Theorem ref_holds_latest_socket (p : ServiceConsoleProps) (evs : list Event) :
  let w := run (initial p) evs in
  (forall s ws, sockets w !! s = Some ws -> onmessage ws = true /\ onerror ws = true) /\
  socketRef w = latest (sockets w) /\
  (socketRef w = None <-> sockets w = []) /\
  (forall s ws,
      sockets w !! s = Some ws -> S s < length (sockets w) ->
      sockets (step w EffectCleanup) !! s = Some ws).
Proof.
  intros w. destruct (reachable_well_formed p evs) as [Hsockets Href]. fold w in Hsockets, Href.
  split; [| split; [exact Href | split]].
  - intros s ws Hs. destruct (Hsockets s ws Hs) as (? & ? & _). now split.
  - rewrite Href. unfold latest.
    destruct (sockets w) as [| ws l]; simpl; [tauto |].
    split; intros E; discriminate E.
  - intros s ws Hs Hlt. unfold step.
    destruct (socketRef w) as [cur |] eqn:Hcur.
    + rewrite (cleanup_with_socket _ _ Hcur). simpl.
      rewrite list_lookup_alter_ne; [exact Hs |].
      assert (Hlatest : latest (sockets w) = Some cur) by congruence.
      unfold latest in Hlatest.
      destruct (length (sockets w)) as [| n]; [discriminate Hlatest |].
      injection Hlatest as <-. lia.
    + unfold cleanup. now rewrite Hcur.
Qed.

(** X15.  Every socket the console ever constructs has an address of the
    page's own scheme: it starts with [wss://] on a page whose origin
    starts with [https], and with [ws://] on any other page. *)
Theorem socket_scheme_is_page_scheme (p : ServiceConsoleProps) (evs : list Event)
    (s : nat) (ws : WebSocket) :
  sockets (run (initial p) evs) !! s = Some ws ->
  exists rest,
    url ws = (if Js.startsWith origin "https" then "wss://" else "ws://") +:+ rest.
Proof.
  intros Hs. destruct (reachable_well_formed p evs) as [Hsockets _].
  destruct (Hsockets s ws Hs) as (_ & _ & Hurl).
  unfold Js.startsWith in Hurl. apply prefix_iff in Hurl.
  destruct Hurl as [rest ->]. exists rest.
  unfold wsProtocol. now destruct (Js.startsWith origin "https").
Qed.

Lemma step_heap_monotone w ev s ws :
  sockets w !! s = Some ws ->
  exists ws',
    sockets (step w ev) !! s = Some ws' /\
    url ws' = url ws /\ onmessage ws' = onmessage ws /\ onerror ws' = onerror ws /\
    (closed ws = true -> closed ws' = true).
Proof.
  intros Hs.
  destruct (step_heap w ev)
    as [[-> _] | [(cur & _ & _ & -> & _) | (target & _ & -> & _)]].
  - now exists ws.
  - destruct (decide (cur = s)) as [-> | Hne].
    + exists (closeSocket ws). rewrite list_lookup_alter_eq, Hs. now repeat split.
    + exists ws. rewrite list_lookup_alter_ne by exact Hne. now repeat split.
  - exists ws. rewrite lookup_app_l by (now apply lookup_lt_Some in Hs).
    now repeat split.
Qed.

(** X16.  Over any sequence of tasks a socket, once on the heap, stays
    there under the same index and address; its handlers are never taken
    off; and once closed it is never open again. *)
Theorem heap_only_grows (w : World) (evs : list Event) (s : nat) (ws : WebSocket) :
  sockets w !! s = Some ws ->
  exists ws',
    sockets (run w evs) !! s = Some ws' /\
    url ws' = url ws /\ onmessage ws' = onmessage ws /\ onerror ws' = onerror ws /\
    (closed ws = true -> closed ws' = true).
Proof.
  revert w ws. induction evs as [| ev evs IH]; intros w ws Hs.
  - exists ws. now repeat split.
  - destruct (step_heap_monotone w ev s ws Hs) as (ws1 & Hs1 & Hu1 & Hm1 & He1 & Hc1).
    destruct (IH (step w ev) ws1 Hs1) as (ws2 & Hs2 & Hu2 & Hm2 & He2 & Hc2).
    exists ws2. simpl. repeat split; try congruence. auto.
Qed.

End HeapTheorems.

(** ** The console: what never happens again *)

Section TraceFacts.

Context `{Js.Builtins} `{ServiceConsole.Browser}.
Import ServiceConsole Spec.

(** Case analysis over every branch of one task, on a world given by its
    fields. *)
Ltac branches :=
  unfold step, effect, cleanup, afterLogLines, afterCreateTicket,
    afterGetCookies, afterExecute, handleMessage, handleError, handleSubmit,
    downloadLogs, clearLogs, initializeSocket, catchInitialization,
    catchConstruction, onCurrentSocket, construct, toastError, consoleError,
    suspend, resume, awaiting;
  simpl;
  repeat (match goal with
          | |- context [match ?x with _ => _ end] =>
              lazymatch x with
              | context [match _ with _ => _ end] => fail
              | _ => destruct x eqn:?
              end
          end; simpl in * ).

Lemma made_app (kind : Call -> bool) (cs more : list Call) :
  length (List.filter kind (cs ++ more))
    = length (List.filter kind cs) + length (List.filter kind more).
Proof. now rewrite List.filter_app, length_app. Qed.

(** With a socket in the ref, a task asks for no ticket and leaves a socket
    in the ref. *)
Lemma step_with_socket w ev :
  socketRef w <> None ->
  made isCreateTicket (step w ev) = made isCreateTicket w /\
  socketRef (step w ev) <> None.
Proof.
  intros Href. unfold made.
  destruct w as [p h i f b hf sr ss pd cs]. simpl in Href.
  destruct sr as [cur |]; [clear Href | now contradiction Href].
  destruct ev; branches; rewrite ?made_app; simpl;
    (split; [lia | discriminate]).
Qed.

(** X17.  Once a socket has been constructed the console never asks for a
    ticket again, whatever happens next: after the cleanup has closed the
    socket, a new run of the effect does not reconnect. *)
Theorem no_ticket_once_connected (w : World) (evs : list Event) :
  socketRef w <> None ->
  made isCreateTicket (run w evs) = made isCreateTicket w /\
  made isNewWebSocket (run w (EffectCleanup :: EffectRun :: nil))
    = made isNewWebSocket w /\
  socketRef (run w evs) <> None.
Proof.
  intros Href. split; [| split].
  - revert w Href. induction evs as [| ev evs IH]; intros w Href; [reflexivity |].
    destruct (step_with_socket w ev Href) as [Hmade Hnext].
    simpl. change (fold_left step evs (step w ev)) with (run (step w ev) evs).
    now rewrite IH.
  - unfold made. destruct w as [p h i f b hf sr ss pd cs]. simpl in Href.
    destruct sr as [cur |]; [clear Href | now contradiction Href].
    unfold run. simpl. branches; rewrite ?made_app; simpl; lia.
  - revert w Href. induction evs as [| ev evs IH]; intros w Href; [exact Href |].
    destruct (step_with_socket w ev Href) as [_ Hnext].
    simpl. now apply IH.
Qed.

Lemma step_blocked w ev :
  socketBlocked w = true -> socketBlocked (step w ev) = true.
Proof.
  intros Hb. destruct w as [p h i f b hf sr ss pd cs]. simpl in Hb. subst b.
  destruct ev; branches; reflexivity.
Qed.

(** X18.  The blocked flag is never taken back: once a mismatch or a
    failure has set it, the alert stays on screen through everything that
    follows, a later successful connection included. *)
Theorem blocked_flag_is_sticky (w : World) (evs : list Event) :
  socketBlocked w = true ->
  socketBlocked (run w evs) = true /\
  alert (render (run w evs)) = Some ("headsUp", "protocolMismatch").
Proof.
  intros Hb.
  assert (Hrun : socketBlocked (run w evs) = true).
  { revert w Hb. induction evs as [| ev evs IH]; intros w Hb; [exact Hb |].
    simpl. apply IH. now apply step_blocked. }
  split; [exact Hrun | now apply alert_of_blocked].
Qed.

End TraceFacts.

Section RequestFacts.

Context `{Js.Builtins} `{ServiceConsole.Browser}.
Import ServiceConsole Spec.

Ltac branches :=
  unfold step, effect, cleanup, afterLogLines, afterCreateTicket,
    afterGetCookies, afterExecute, handleMessage, handleError, handleSubmit,
    downloadLogs, clearLogs, initializeSocket, catchInitialization,
    catchConstruction, onCurrentSocket, construct, toastError, consoleError,
    suspend, resume, awaiting;
  simpl;
  repeat (match goal with
          | |- context [match ?x with _ => _ end] =>
              lazymatch x with
              | context [match _ with _ => _ end] => fail
              | _ => destruct x eqn:?
              end
          end; simpl in * ).

Lemma truthy_opt_true (o : option string) :
  Js.truthy_opt o = true -> exists name, o = Some name /\ name <> "".
Proof.
  destruct o as [name |]; simpl; [| discriminate].
  unfold Js.truthy. rewrite negb_true_iff. intros Hne.
  exists name. split; [reflexivity | now apply String.eqb_neq].
Qed.

(** A task either leaves the tail requests as they are and the fetched
    flag set if it was, or it is the effect run that sets the flag and
    makes the one request, for the service the props name. *)
Lemma step_tail_request w ev :
  props (step w ev) = props w /\
  ((List.filter isLogLines (calls (step w ev)) = List.filter isLogLines (calls w) /\
    (hasFetchedLogsRef w = true -> hasFetchedLogsRef (step w ev) = true)) \/
   (hasFetchedLogsRef w = false /\ hasFetchedLogsRef (step w ev) = true /\
    exists name,
      type (props w) = Some service /\ serviceName (props w) = Some name /\
      name <> "" /\ calls (step w ev) = calls w ++ [LogLines name])).
Proof.
  destruct w as [p h i f b hf sr ss pd cs].
  assert (Hinit : forall w0,
             props (initializeSocket w0) = props w0 /\
             List.filter isLogLines (calls (initializeSocket w0))
               = List.filter isLogLines (calls w0) /\
             hasFetchedLogsRef (initializeSocket w0) = hasFetchedLogsRef w0).
  { intros w0. unfold initializeSocket. destruct (socketRef w0); simpl;
      [now repeat split |].
    rewrite List.filter_app. simpl. rewrite app_nil_r. now repeat split. }
  destruct ev as [ | | id lines | id ticket | id cookies | id ok
                 | s data | s | v | v | | | ];
    try (branches; (split; [reflexivity |]); left;
         rewrite ?List.filter_app; simpl; rewrite ?app_nil_r;
         (split; [reflexivity |
                  intros Hf; first [exact Hf | reflexivity | discriminate Hf]])).
  unfold step, effect. simpl. destruct hf.
  - destruct (Hinit (mkWorld p h i f b true sr ss pd cs)) as (-> & -> & ->).
    split; [reflexivity |]. left. now split.
  - destruct (type p) as [[|] |] eqn:Htype;
      [destruct (Js.truthy_opt (serviceName p)) eqn:Hname |..];
      try (match goal with
           | |- context [initializeSocket ?w0] => destruct (Hinit w0) as (-> & -> & ->)
           end;
           (split; [reflexivity |]); left; split; [reflexivity | discriminate]).
    apply truthy_opt_true in Hname. destruct Hname as (name & Hname & Hne).
    simpl. split; [reflexivity |]. right. rewrite Hname. simpl.
    repeat split. now exists name.
Qed.

Lemma tail_requests_invariant p evs :
  let w := run (initial p) evs in
  props w = p /\
  length (List.filter isLogLines (calls w)) <= (if hasFetchedLogsRef w then 1 else 0) /\
  (forall c, In c (List.filter isLogLines (calls w)) ->
             exists name,
               c = LogLines name /\ type p = Some service /\
               serviceName p = Some name /\ name <> "").
Proof.
  induction evs as [| ev evs IH] using rev_ind.
  - simpl. repeat split; [lia | intros c []].
  - cbv zeta in *. rewrite run_snoc.
    destruct IH as (Hprops & Hcount & Hnames).
    destruct (step_tail_request (run (initial p) evs) ev)
      as [Hp [[Hsame Hflag] | (Hfalse & Htrue & name & Htype & Hname & Hne & Hcalls)]].
    + rewrite Hp, Hsame. repeat split; [exact Hprops | | exact Hnames].
      destruct (hasFetchedLogsRef (run (initial p) evs)).
      * now rewrite Hflag.
      * destruct (hasFetchedLogsRef (step _ ev)); lia.
    + rewrite Hp, Htrue, Hcalls, List.filter_app. simpl.
      rewrite Hfalse in Hcount. rewrite Hprops in Htype, Hname.
      repeat split; [exact Hprops | rewrite length_app; simpl; lia |].
      intros c Hc. apply in_app_or in Hc. destruct Hc as [Hold | [<- | []]].
      * now apply Hnames.
      * now exists name.
Qed.

(** X19.  Over the whole life of a console the cached tail is requested at
    most once, however often the effect runs; it is requested for the
    service named in the props only, and a console that is not a service
    console, or has no service name, never requests it. *)
Theorem tail_requested_at_most_once (p : ServiceConsoleProps) (evs : list Event) :
  let w := run (initial p) evs in
  made isLogLines w <= 1 /\
  (forall name,
      In (LogLines name) (calls w) ->
      type p = Some service /\ serviceName p = Some name /\ name <> "") /\
  (type p <> Some service \/ serviceName p = None \/ serviceName p = Some "" ->
   made isLogLines w = 0).
Proof.
  intros w. destruct (tail_requests_invariant p evs) as (_ & Hcount & Hnames).
  fold w in Hcount, Hnames. unfold made.
  split; [| split].
  - destruct (hasFetchedLogsRef w); lia.
  - intros name Hin.
    destruct (Hnames (LogLines name)) as (name' & [= <-] & Hrest);
      [apply filter_In; now split | exact Hrest].
  - intros Hnone.
    destruct (List.filter isLogLines (calls w)) as [| c l] eqn:Hfilter;
      [reflexivity |].
    destruct (Hnames c (or_introl eq_refl)) as (name & _ & Htype & Hname & Hne).
    destruct Hnone as [Hn | [Hn | Hn]]; congruence.
Qed.

End RequestFacts.

Section TicketFacts.

Context `{Js.Builtins} `{ServiceConsole.Browser}.
Import ServiceConsole Spec.

Ltac branches :=
  unfold step, effect, cleanup, afterLogLines, afterCreateTicket,
    afterGetCookies, afterExecute, handleMessage, handleError, handleSubmit,
    downloadLogs, clearLogs, initializeSocket, catchInitialization,
    catchConstruction, onCurrentSocket, construct, toastError, consoleError,
    suspend, resume, awaiting;
  simpl;
  repeat (match goal with
          | |- context [match ?x with _ => _ end] =>
              lazymatch x with
              | context [match _ with _ => _ end] => fail
              | _ => destruct x eqn:?
              end
          end; simpl in * ).




End TicketFacts.

(** ** The console: removal of colour sequences *)

Section StripFacts.

Import ServiceConsole Spec.

Lemma parameter_is_not_m (c : ascii) :
  isSgrParameter c = true -> Ascii.eqb c "m" = false.
Proof.
  destruct c as [[] [] [] [] [] [] [] []]; vm_compute; congruence.
Qed.

Lemma sgrTail_length (s : string) (n : nat) :
  sgrTail s = Some n -> n <= String.length s.
Proof.
  revert n. induction s as [| c s IH]; intros n; simpl; [discriminate |].
  destruct (Ascii.eqb c "m"); [intros [= <-]; lia |].
  destruct (isSgrParameter c); [| discriminate].
  destruct (sgrTail s) as [m |]; simpl; [| discriminate].
  intros [= <-]. specialize (IH m eq_refl). lia.
Qed.

Lemma sgrMatch_length (s : string) (n : nat) :
  sgrMatch s = Some n -> n <= String.length s.
Proof.
  destruct s as [| c [| d s]]; simpl; try discriminate.
  destruct (Ascii.eqb c (ascii_of_nat 27) && Ascii.eqb d "["); [| discriminate].
  destruct (sgrTail s) as [m |] eqn:Htail; simpl; [| discriminate].
  intros [= <-]. apply sgrTail_length in Htail. lia.
Qed.

(** A scan for the closing [m] that runs into the start of another
    sequence fails there, as it does at the end of the text. *)
Lemma sgrTail_before_sgr (t parameters b : string) :
  sgrTail (t +:+ sgr parameters +:+ b) = sgrTail t.
Proof.
  induction t as [| c t IH].
  - reflexivity.
  - rewrite append_cons. simpl. now rewrite IH.
Qed.

Lemma sgrMatch_before_sgr (c : ascii) (a parameters b : string) :
  sgrMatch (String c a +:+ sgr parameters +:+ b) = sgrMatch (String c a).
Proof.
  rewrite append_cons. destruct a as [| d t].
  - rewrite append_empty. unfold sgr. rewrite append_cons. simpl.
    now rewrite andb_false_r.
  - rewrite append_cons. simpl. now rewrite sgrTail_before_sgr.
Qed.

Lemma stripFrom_before_sgr (a parameters b : string) (k : nat) :
  k <= String.length a ->
  stripFrom k (a +:+ sgr parameters +:+ b)
    = stripFrom k a +:+ stripFrom 0 (sgr parameters +:+ b).
Proof.
  revert k. induction a as [| c a IH]; intros k Hk.
  - simpl in Hk. assert (k = 0) as -> by lia. reflexivity.
  - destruct k as [| k].
    + change (stripFrom 0 (String c a +:+ sgr parameters +:+ b))
        with (match sgrMatch (String c a +:+ sgr parameters +:+ b) with
              | Some (S j) => stripFrom j (a +:+ sgr parameters +:+ b)
              | _ => String c (stripFrom 0 (a +:+ sgr parameters +:+ b))
              end).
      rewrite sgrMatch_before_sgr.
      change (stripFrom 0 (String c a))
        with (match sgrMatch (String c a) with
              | Some (S j) => stripFrom j a
              | _ => String c (stripFrom 0 a)
              end).
      destruct (sgrMatch (String c a)) as [[| j] |] eqn:Hmatch.
      * rewrite IH by lia. now rewrite append_cons.
      * apply sgrMatch_length in Hmatch. simpl in Hmatch.
        apply IH. lia.
      * rewrite IH by lia. now rewrite append_cons.
    + rewrite append_cons. simpl. apply IH. simpl in Hk. lia.
Qed.

Lemma sgrTail_parameters (parameters b : string) :
  Forall (fun c => isSgrParameter c = true) (chars parameters) ->
  sgrTail (parameters +:+ "m" +:+ b) = Some (S (String.length parameters)).
Proof.
  induction parameters as [| c parameters IH]; intros Hall.
  - reflexivity.
  - rewrite append_cons. simpl. unfold chars in Hall. simpl in Hall.
    apply Forall_cons in Hall. destruct Hall as [Hc Hall].
    rewrite (parameter_is_not_m c Hc), Hc. now rewrite IH.
Qed.

Lemma stripFrom_skips (x b : string) :
  stripFrom (String.length x) (x +:+ b) = stripFrom 0 b.
Proof.
  induction x as [| c x IH]; [reflexivity |].
  rewrite append_cons. simpl. exact IH.
Qed.

Lemma stripFrom_sgr (parameters b : string) :
  Forall (fun c => isSgrParameter c = true) (chars parameters) ->
  stripFrom 0 (sgr parameters +:+ b) = stripFrom 0 b.
Proof.
  intros Hall. unfold sgr. rewrite !append_cons.
  change (stripFrom 0 (String (ascii_of_nat 27)
                         (String "[" ((parameters +:+ "m") +:+ b))))
    with (match sgrMatch (String (ascii_of_nat 27)
                            (String "[" ((parameters +:+ "m") +:+ b))) with
          | Some (S j) => stripFrom j (String "[" ((parameters +:+ "m") +:+ b))
          | _ => String (ascii_of_nat 27)
                   (stripFrom 0 (String "[" ((parameters +:+ "m") +:+ b)))
          end).
  simpl sgrMatch. rewrite append_assoc, (sgrTail_parameters _ _ Hall). simpl.
  replace (S (String.length parameters)) with (String.length (parameters +:+ "m")).
  - rewrite <- append_assoc. apply stripFrom_skips.
  - clear. induction parameters as [| c p IH]; [reflexivity |].
    rewrite append_cons. simpl. now rewrite IH.
Qed.

(** X21.  A well-formed colour sequence (escape, bracket, digits and
    semicolons, [m]) is removed wherever it stands: the cleaned text of a
    line is the cleaned text before the sequence followed by the cleaned
    text after it. *)
Theorem colour_sequence_removed (a parameters b : string) :
  Forall (fun c => isSgrParameter c = true) (chars parameters) ->
  stripAnsi (a +:+ sgr parameters +:+ b) = stripAnsi a +:+ stripAnsi b /\
  content (applyStyles (a +:+ sgr parameters +:+ b)) = stripAnsi a +:+ stripAnsi b.
Proof.
  intros Hall.
  assert (Hstrip : stripAnsi (a +:+ sgr parameters +:+ b) = stripAnsi a +:+ stripAnsi b).
  { unfold stripAnsi. rewrite stripFrom_before_sgr by lia.
    now rewrite (stripFrom_sgr _ _ Hall). }
  split; [exact Hstrip |].
  unfold applyStyles. cbv zeta. rewrite Hstrip.
  repeat (destruct (Js.includes _ _); [reflexivity |]). reflexivity.
Qed.

Lemma sgrMatch_needs_escape (c : ascii) (s : string) :
  c <> ascii_of_nat 27 -> sgrMatch (String c s) = None.
Proof.
  intros Hc. destruct s as [| d s]; [reflexivity |]. simpl.
  apply Ascii.eqb_neq in Hc. now rewrite Hc.
Qed.

(** X22.  A line without an escape character is displayed as stored:
    cleaning changes nothing in it. *)
Theorem text_without_escape_unchanged (text : string) :
  ~ In (ascii_of_nat 27) (chars text) ->
  stripAnsi text = text /\ content (applyStyles text) = text.
Proof.
  intros Hfree.
  assert (Hstrip : stripAnsi text = text).
  { unfold stripAnsi. induction text as [| c text IH]; [reflexivity |].
    unfold chars in Hfree. simpl in Hfree.
    change (stripFrom 0 (String c text))
      with (match sgrMatch (String c text) with
            | Some (S j) => stripFrom j text
            | _ => String c (stripFrom 0 text)
            end).
    rewrite sgrMatch_needs_escape by (intros ->; apply Hfree; now left).
    rewrite IH; [reflexivity |]. intros Hin. apply Hfree. now right. }
  split; [exact Hstrip |].
  unfold applyStyles. cbv zeta. rewrite Hstrip.
  repeat (destruct (Js.includes _ _); [reflexivity |]). reflexivity.
Qed.

Lemma chars_length (s : string) : length (chars s) = String.length s.
Proof. induction s as [| c s IH]; simpl; [reflexivity | now rewrite <- IH]. Qed.

Lemma stripFrom_sublist (s : string) (k : nat) :
  chars (stripFrom k s) `sublist_of` chars s.
Proof.
  revert k. induction s as [| c s IH]; intros k.
  - destruct k; constructor.
  - destruct k as [| k].
    + change (stripFrom 0 (String c s))
        with (match sgrMatch (String c s) with
              | Some (S j) => stripFrom j s
              | _ => String c (stripFrom 0 s)
              end).
      destruct (sgrMatch (String c s)) as [[| j] |]; unfold chars in *; simpl.
      * apply sublist_skip, IH.
      * apply sublist_cons, IH.
      * apply sublist_skip, IH.
    + unfold chars in *. simpl. apply sublist_cons, IH.
Qed.

(** X23.  Cleaning only ever takes characters out: the cleaned text is a
    subsequence of the stored text, so it is never longer and no character
    appears in it that the stored line does not have. *)
Theorem cleaning_only_removes (text : string) :
  chars (stripAnsi text) `sublist_of` chars text /\
  String.length (stripAnsi text) <= String.length text /\
  (forall c, In c (chars (stripAnsi text)) -> In c (chars text)).
Proof.
  pose proof (stripFrom_sublist text 0) as Hsub. fold (stripAnsi text) in Hsub.
  split; [exact Hsub | split].
  - apply sublist_length in Hsub. now rewrite !chars_length in Hsub.
  - intros c Hc. apply list_elem_of_In. apply list_elem_of_In in Hc.
    eapply sublist_subseteq; eassumption.
Qed.

End StripFacts.

(** ** The further properties at work on concrete inputs *)

Lemma authorized_request_shape_witness :
  (Sample.sessionCookies !! "at" = Some "eyJhbGciOi" /\ "eyJhbGciOi" <> "" /\
   Sample.sessionCookies !! "add" = Some "http://cloud.example:2812/api/v3" /\
   "http://cloud.example:2812/api/v3" <> "" /\
   @Js.decodeURIComponent Sample.builtins "http://cloud.example:2812/api/v3"
     = Some "http://cloud.example:2812/api/v3") /\
  fst (@ServerApi.serverApiGet Sample.builtins Sample.runtime
         Sample.sessionCookies "/service/Lobby-1/logLines" None)
    = [ServerApi.mkRequest
         ("http://cloud.example:2812/api/v3" +:+ "/service/Lobby-1/logLines" +:+ "")
         "GET"
         [("Content-Type", "application/json");
          ("Authorization", "Bearer " +:+ "eyJhbGciOi")] None].
Proof.
  assert (Hat : Sample.sessionCookies !! "at" = Some "eyJhbGciOi")
    by (vm_compute; reflexivity).
  assert (Htoken : "eyJhbGciOi" <> "") by discriminate.
  assert (Hadd : Sample.sessionCookies !! "add" = Some "http://cloud.example:2812/api/v3")
    by (vm_compute; reflexivity).
  assert (Haddress : "http://cloud.example:2812/api/v3" <> "") by discriminate.
  assert (Hdec : @Js.decodeURIComponent Sample.builtins "http://cloud.example:2812/api/v3"
                 = Some "http://cloud.example:2812/api/v3")
    by (vm_compute; reflexivity).
  split; [now repeat split |].
  exact (proj1 (@authorized_request_shape Sample.builtins Sample.runtime
                  Sample.sessionCookies _ _ _ Hat Htoken Hadd Haddress Hdec)
           "/service/Lobby-1/logLines").
Defined.

Lemma user_page_fetch_witness :
  UserPage.hasPermissions ["cloudnet_rest:user_get"] = true /\
  snd (@UserPage.UserPage Sample.builtins Sample.runtime Sample.templating
         ∅ "f3b1" ["cloudnet_rest:user_get"])
    = UserPage.DoesNotExist "User".
Proof.
  assert (Hgate : UserPage.hasPermissions ["cloudnet_rest:user_get"] = true)
    by reflexivity.
  split; [exact Hgate |].
  exact (proj1 (proj2 (@user_page_fetch Sample.builtins Sample.runtime Sample.templating
                         ∅ "f3b1" ["cloudnet_rest:user_get"] Hgate))
           ServerApi.Unauthorized eq_refl).
Defined.

Lemma socket_url_of_address_witness :
  let w := @ServiceConsole.run Sample.builtins Sample.httpsPage
             (ServiceConsole.initial Sample.serviceProps)
             [ServiceConsole.EffectRun;
              ServiceConsole.LogLinesSettled 0 None;
              ServiceConsole.TicketSettled 1 (Some "t9")] in
  ServiceConsole.awaiting w 2 = Some (ServiceConsole.InGetCookies "t9") /\
  ServiceConsole.sockets
    (@ServiceConsole.step Sample.builtins Sample.httpsPage w
       (ServiceConsole.CookiesSettled 2 (Some Sample.httpsCookies)))
    = ServiceConsole.sockets w ++
      [ServiceConsole.mkSocket
         ("wss://" +:+ "cloud.example/api/v3" +:+ "/service/Lobby-1/liveLog"
                  +:+ "?ticket=" +:+ "t9")
         false true true].
Proof.
  intros w.
  assert (Hwait : ServiceConsole.awaiting w 2 = Some (ServiceConsole.InGetCookies "t9"))
    by (vm_compute; reflexivity).
  split; [exact Hwait |].
  refine (proj1 (proj2 (@socket_url_of_address Sample.builtins Sample.httpsPage
                          w 2 "t9" "cloud.example/api/v3" Sample.httpsCookies Hwait)
                   _ _ _));
    vm_compute; reflexivity.
Defined.

Lemma view_grows_at_the_end_witness :
  let w := @ServiceConsole.run Sample.builtins Sample.httpPage
             (ServiceConsole.initial Sample.nodeProps)
             [ServiceConsole.EffectRun;
              ServiceConsole.TicketSettled 0 (Some "t1");
              ServiceConsole.CookiesSettled 1 (Some Sample.httpCookies);
              ServiceConsole.FilterChange "WARN"] in
  Spec.Listening w 0 /\
  @ServiceConsole.filteredHistory Sample.builtins
    (@ServiceConsole.step Sample.builtins Sample.httpPage w
       (ServiceConsole.SocketMessage 0 "[warn] low memory"))
    = [ServiceConsole.mkEntry "[warn] low memory"].
Proof.
  intros w.
  assert (Hlisten : Spec.Listening w 0) by (eexists; split; vm_compute; reflexivity).
  split; [exact Hlisten |].
  exact (@view_grows_at_the_end Sample.builtins Sample.httpPage w 0
           "[warn] low memory" Hlisten).
Defined.

Lemma messages_appended_in_order_witness :
  let w := @ServiceConsole.run Sample.builtins Sample.httpPage
             (ServiceConsole.initial Sample.nodeProps)
             [ServiceConsole.EffectRun;
              ServiceConsole.TicketSettled 0 (Some "t1");
              ServiceConsole.CookiesSettled 1 (Some Sample.httpCookies)] in
  let msgs := [(0, "one"); (0, "two"); (0, "three")] in
  (forall m, In m msgs -> Spec.Listening w (fst m)) /\
  map ServiceConsole.output
    (ServiceConsole.history
       (@ServiceConsole.run Sample.builtins Sample.httpPage w (Spec.deliveries msgs)))
    = map ServiceConsole.output (ServiceConsole.history w) ++ ["one"; "two"; "three"].
Proof.
  intros w msgs.
  assert (Hall : forall m, In m msgs -> Spec.Listening w (fst m)).
  { intros m [<- | [<- | [<- | []]]]; eexists; split; vm_compute; reflexivity. }
  split; [exact Hall |].
  exact (proj1 (@messages_appended_in_order Sample.builtins Sample.httpPage w msgs Hall)).
Defined.

Lemma history_changes_only_by_witness :
  let w := @ServiceConsole.run Sample.builtins Sample.httpPage
             (ServiceConsole.initial Sample.nodeProps)
             [ServiceConsole.EffectRun;
              ServiceConsole.TicketSettled 0 (Some "t1");
              ServiceConsole.CookiesSettled 1 (Some Sample.httpCookies);
              ServiceConsole.SocketMessage 0 "one"] in
  ServiceConsole.history
    (@ServiceConsole.step Sample.builtins Sample.httpPage w ServiceConsole.ClearClick)
    <> ServiceConsole.history w /\
  ((exists s data,
       ServiceConsole.ClearClick = ServiceConsole.SocketMessage s data /\
       ServiceConsole.history
         (@ServiceConsole.step Sample.builtins Sample.httpPage w ServiceConsole.ClearClick)
         = ServiceConsole.history w ++ [ServiceConsole.mkEntry data]) \/
   (exists id lines,
       ServiceConsole.ClearClick = ServiceConsole.LogLinesSettled id (Some lines) /\
       ServiceConsole.awaiting w id = Some ServiceConsole.InLogLines /\
       ServiceConsole.history
         (@ServiceConsole.step Sample.builtins Sample.httpPage w ServiceConsole.ClearClick)
         = map ServiceConsole.mkEntry lines) \/
   (ServiceConsole.ClearClick = ServiceConsole.ClearClick /\
    ServiceConsole.history
      (@ServiceConsole.step Sample.builtins Sample.httpPage w ServiceConsole.ClearClick)
      = [])).
Proof.
  intros w.
  assert (Hchanged : ServiceConsole.history
                       (@ServiceConsole.step Sample.builtins Sample.httpPage w
                          ServiceConsole.ClearClick)
                     <> ServiceConsole.history w)
    by (vm_compute; discriminate).
  split; [exact Hchanged |].
  exact (@history_changes_only_by Sample.builtins Sample.httpPage w
           ServiceConsole.ClearClick Hchanged).
Defined.

Lemma clear_keeps_stream_witness :
  let w := @ServiceConsole.run Sample.builtins Sample.httpPage
             (ServiceConsole.initial Sample.nodeProps)
             [ServiceConsole.EffectRun;
              ServiceConsole.TicketSettled 0 (Some "t1");
              ServiceConsole.CookiesSettled 1 (Some Sample.httpCookies);
              ServiceConsole.SocketMessage 0 "old"] in
  let msgs := [(0, "new")] in
  (forall m, In m msgs -> Spec.Listening w (fst m)) /\
  map ServiceConsole.output
    (ServiceConsole.history
       (@ServiceConsole.run Sample.builtins Sample.httpPage
          (@ServiceConsole.step Sample.builtins Sample.httpPage w ServiceConsole.ClearClick)
          (Spec.deliveries msgs)))
    = ["new"].
Proof.
  intros w msgs.
  assert (Hall : forall m, In m msgs -> Spec.Listening w (fst m)).
  { intros m [<- | []]; eexists; split; vm_compute; reflexivity. }
  split; [exact Hall |].
  exact (proj2 (proj2 (proj2 (proj2 (proj2 (proj2
           (@clear_keeps_stream Sample.builtins Sample.httpPage w msgs Hall))))))).
Defined.

Lemma seeding_replaces_buffer_witness :
  let w := @ServiceConsole.run Sample.builtins Sample.httpPage
             (ServiceConsole.initial Sample.serviceProps)
             [ServiceConsole.EffectRun] in
  ServiceConsole.awaiting w 0 = Some ServiceConsole.InLogLines /\
  map ServiceConsole.output
    (ServiceConsole.history
       (@ServiceConsole.step Sample.builtins Sample.httpPage w
          (ServiceConsole.LogLinesSettled 0 (Some ["a"; "b"]))))
    = ["a"; "b"].
Proof.
  intros w.
  assert (Hwait : ServiceConsole.awaiting w 0 = Some ServiceConsole.InLogLines)
    by (vm_compute; reflexivity).
  split; [exact Hwait |].
  exact (proj1 (proj1 (@seeding_replaces_buffer Sample.builtins Sample.httpPage w 0 Hwait)
                  ["a"; "b"])).
Defined.

Lemma socket_scheme_is_page_scheme_witness :
  let evs := [ServiceConsole.EffectRun;
              ServiceConsole.TicketSettled 0 (Some "t1");
              ServiceConsole.CookiesSettled 1 (Some Sample.httpsCookies)] in
  let ws := ServiceConsole.mkSocket
              "wss://cloud.example/api/v3/node/Node-1/liveConsole?ticket=t1"
              false true true in
  ServiceConsole.sockets
    (@ServiceConsole.run Sample.builtins Sample.httpsPage
       (ServiceConsole.initial Sample.nodeProps) evs) !! 0 = Some ws /\
  exists rest,
    ServiceConsole.url ws
    = (if Js.startsWith (@ServiceConsole.origin Sample.httpsPage) "https"
       then "wss://" else "ws://") +:+ rest.
Proof.
  intros evs ws.
  assert (Hs : ServiceConsole.sockets
                 (@ServiceConsole.run Sample.builtins Sample.httpsPage
                    (ServiceConsole.initial Sample.nodeProps) evs) !! 0 = Some ws)
    by (vm_compute; reflexivity).
  split; [exact Hs |].
  exact (@socket_scheme_is_page_scheme Sample.builtins Sample.httpsPage
           Sample.nodeProps evs 0 ws Hs).
Defined.

Lemma heap_only_grows_witness :
  let w := @ServiceConsole.run Sample.builtins Sample.httpPage
             (ServiceConsole.initial Sample.nodeProps)
             [ServiceConsole.EffectRun;
              ServiceConsole.TicketSettled 0 (Some "t1");
              ServiceConsole.CookiesSettled 1 (Some Sample.httpCookies);
              ServiceConsole.EffectCleanup] in
  let ws := ServiceConsole.mkSocket
              "ws://cloud.example:2812/api/v3/node/Node-1/liveConsole?ticket=t1"
              true true true in
  let evs := [ServiceConsole.EffectRun; ServiceConsole.SocketError 0;
              ServiceConsole.SocketMessage 0 "late"; ServiceConsole.ClearClick] in
  ServiceConsole.sockets w !! 0 = Some ws /\
  exists ws',
    ServiceConsole.sockets (@ServiceConsole.run Sample.builtins Sample.httpPage w evs) !! 0
      = Some ws' /\
    ServiceConsole.url ws' = ServiceConsole.url ws /\
    ServiceConsole.onmessage ws' = ServiceConsole.onmessage ws /\
    ServiceConsole.onerror ws' = ServiceConsole.onerror ws /\
    (ServiceConsole.closed ws = true -> ServiceConsole.closed ws' = true).
Proof.
  intros w ws evs.
  assert (Hs : ServiceConsole.sockets w !! 0 = Some ws) by (vm_compute; reflexivity).
  split; [exact Hs |].
  exact (@heap_only_grows Sample.builtins Sample.httpPage w evs 0 ws Hs).
Defined.

Lemma no_ticket_once_connected_witness :
  let w := @ServiceConsole.run Sample.builtins Sample.httpPage
             (ServiceConsole.initial Sample.nodeProps)
             [ServiceConsole.EffectRun;
              ServiceConsole.TicketSettled 0 (Some "t1");
              ServiceConsole.CookiesSettled 1 (Some Sample.httpCookies)] in
  let evs := [ServiceConsole.EffectCleanup; ServiceConsole.EffectRun;
              ServiceConsole.EffectCleanup; ServiceConsole.EffectRun] in
  ServiceConsole.socketRef w <> None /\
  Spec.made Spec.isCreateTicket (@ServiceConsole.run Sample.builtins Sample.httpPage w evs)
    = Spec.made Spec.isCreateTicket w.
Proof.
  intros w evs.
  assert (Href : ServiceConsole.socketRef w <> None) by (vm_compute; discriminate).
  split; [exact Href |].
  exact (proj1 (@no_ticket_once_connected Sample.builtins Sample.httpPage w evs Href)).
Defined.

Lemma blocked_flag_is_sticky_witness :
  let w := @ServiceConsole.run Sample.builtins Sample.httpPage
             (ServiceConsole.initial Sample.nodeProps)
             [ServiceConsole.EffectRun; ServiceConsole.TicketSettled 0 None] in
  let evs := [ServiceConsole.EffectCleanup; ServiceConsole.EffectRun;
              ServiceConsole.TicketSettled 1 (Some "t2");
              ServiceConsole.CookiesSettled 2 (Some Sample.httpCookies);
              ServiceConsole.SocketMessage 0 "up"] in
  ServiceConsole.socketBlocked w = true /\
  ServiceConsole.socketBlocked (@ServiceConsole.run Sample.builtins Sample.httpPage w evs)
    = true.
Proof.
  intros w evs.
  assert (Hb : ServiceConsole.socketBlocked w = true) by (vm_compute; reflexivity).
  split; [exact Hb |].
  exact (proj1 (@blocked_flag_is_sticky Sample.builtins Sample.httpPage w evs Hb)).
Defined.

(** After a failed ticket request the effect's next run connects, the line
    is streamed, and the alert is still there. *)
Example alert_outlives_reconnect :
  let w := @ServiceConsole.run Sample.builtins Sample.httpPage
             (ServiceConsole.initial Sample.nodeProps)
             [ServiceConsole.EffectRun; ServiceConsole.TicketSettled 0 None;
              ServiceConsole.EffectCleanup; ServiceConsole.EffectRun;
              ServiceConsole.TicketSettled 1 (Some "t2");
              ServiceConsole.CookiesSettled 2 (Some Sample.httpCookies);
              ServiceConsole.SocketMessage 0 "up"] in
  map ServiceConsole.output (ServiceConsole.history w) = ["up"] /\
  @ServiceConsole.alert (@ServiceConsole.render Sample.builtins w)
    = Some ("headsUp", "protocolMismatch").
Proof. vm_compute. split; reflexivity. Qed.

Lemma colour_sequence_removed_witness :
  Forall (fun c => ServiceConsole.isSgrParameter c = true) (Spec.chars "1;31") /\
  ServiceConsole.stripAnsi ("[12:00:01] " +:+ Spec.sgr "1;31" +:+ "ERROR disk full")
    = ServiceConsole.stripAnsi "[12:00:01] " +:+ ServiceConsole.stripAnsi "ERROR disk full".
Proof.
  assert (Hall : Forall (fun c => ServiceConsole.isSgrParameter c = true) (Spec.chars "1;31"))
    by (repeat constructor).
  split; [exact Hall |].
  exact (proj1 (colour_sequence_removed "[12:00:01] " "1;31" "ERROR disk full" Hall)).
Defined.

Lemma text_without_escape_unchanged_witness :
  ~ In (ascii_of_nat 27) (Spec.chars "[12:00:01] INFO started") /\
  ServiceConsole.stripAnsi "[12:00:01] INFO started" = "[12:00:01] INFO started".
Proof.
  assert (Hfree : ~ In (ascii_of_nat 27) (Spec.chars "[12:00:01] INFO started")).
  { vm_compute. intuition discriminate. }
  split; [exact Hfree |].
  exact (proj1 (text_without_escape_unchanged "[12:00:01] INFO started" Hfree)).
Defined.

(** The replace does not rescan its own output: removing a sequence can
    bring the pieces of another one together, which then stays. *)
Example cleaning_is_one_pass :
  let esc := String (ascii_of_nat 27) "" in
  ServiceConsole.stripAnsi (esc +:+ "[" +:+ Spec.sgr "0" +:+ "m") = esc +:+ "[m" /\
  ServiceConsole.stripAnsi (esc +:+ "[m") = "".
Proof. vm_compute. split; reflexivity. Qed.
